(** * Chronosphere front end: a shallow embedding of the viewer-side code

  The repository's sources are the React/TypeScript client of the
  Chronosphere win-probability engine.  This development embeds the
  pieces of that client that carry behaviour: the mispricing gauge
  ([MispricingGauge.tsx]), the bet-signal helpers of the match pages,
  the two zustand stores ([useAppStore.ts], [useGameStore.js]), the two
  WebSocket message handlers ([useWebSocket.js], [SpectatePage.tsx]) and
  the deadman switch of [Dashboard.jsx].

  Numbers.  A JavaScript [number] is modelled as an exact rational: the
  values that reach these components are probabilities, differences of
  probabilities and percentages decoded from JSON text, which cannot
  carry NaN.  Comparisons, [Math.max], [Math.min], [Math.abs] and
  [Math.round] are exact on such values, and so is the rounding to one
  decimal that [toFixed(1)] does on the value it is handed; the rounding
  of the arithmetic itself is not modelled. *)

From Stdlib Require Import QArith Qabs Qround ZArith Lia Lqa Sorted.
From stdpp Require Import base gmap list strings pretty.

Set Warnings "-register-all".

(** ** JavaScript numbers and the [Math] functions the client calls *)

Definition number : Type := Q.

Module Math.
Local Open Scope Q_scope.

(** [x <= y], [x < y] and [x >= y] as the booleans JavaScript computes. *)
Definition leb (x y : number) : bool := Qle_bool x y.
Definition ltb (x y : number) : bool := negb (Qle_bool y x).
Definition geb (x y : number) : bool := Qle_bool y x.

Definition max (a b : number) : number := if leb a b then b else a.
Definition min (a b : number) : number := if leb a b then a else b.
Definition abs (x : number) : number := if leb 0 x then x else - x.

(** [Math.round]: the nearest integer, halves rounded towards +infinity. *)
Definition round (x : number) : Z := Qfloor (x + (1 # 2)).
End Math.

(** ** [Number.prototype.toFixed] with one fraction digit *)

Module NumberFormat.
Local Open Scope Q_scope.

(** What [x.toFixed(1)] returns.  The sign is split off first.  Below
    10^21 the result is the integer [n] for which [n / 10 - x] is as close
    to zero as possible, the larger one if there are two, printed with a
    point before its last digit.  From 10^21 on it is the number's own
    string, whose digits are not modelled. *)
Inductive Fixed1 :=
| Tenths (negative : bool) (n : Z)
| Plain (negative : bool) (x : number).

Definition toFixed1 (x : number) : Fixed1 :=
  let negative := Math.ltb x 0 in
  let x := if negative then - x else x in
  if Math.geb x 1000000000000000000000 then Plain negative x
  else Tenths negative (Qfloor (x * 10 + (1 # 2))).

(** The string: the sign, the digits of [n] before the last, a point,
    the last digit ([n] below 10 gets a leading zero). *)
Definition text (f : Fixed1) : option string :=
  match f with
  | Tenths negative n =>
      Some (String.append (if negative then "-" else "")
             (String.append (pretty (n / 10)%Z)
               (String.append "." (pretty (n mod 10)%Z))))
  | Plain _ _ => None
  end.

(** The number the string denotes. *)
Definition value (f : Fixed1) : number :=
  match f with
  | Tenths negative n => if negative then - (inject_Z n / 10) else inject_Z n / 10
  | Plain negative x => if negative then - x else x
  end.

End NumberFormat.

(** ** Signals: the vocabulary of the specification *)

Inductive Tier := SKIP | LEAN | STRONG.

(** The gauge's doc comment fixes the orientation: a positive index means
  the model rates Radiant above the market, a negative one Dire. *)
Inductive Side := Radiant | Dire.

#[global] Instance Tier_eq_dec : EqDecision Tier.
Proof. solve_decision. Defined.
#[global] Instance Side_eq_dec : EqDecision Side.
Proof. solve_decision. Defined.

(** ** [frontend/src/components/MispricingGauge.tsx] *)

Module MispricingGauge.
Local Open Scope Q_scope.

Record MispricingGaugeProps := {
  mispricing : number;   (* -1 to 1 (model prob - market prob) *)
  showLabels : bool
}.

Definition clampedValue (mispricing : number) : number :=
  Math.max (-1) (Math.min 1 mispricing).

Definition percentage (mispricing : number) : number :=
  Math.abs (clampedValue mispricing * 50).

Definition isPositive (mispricing : number) : bool :=
  Math.geb (clampedValue mispricing) 0.

Definition isSignificant (mispricing : number) : bool :=
  Math.geb (Math.abs (clampedValue mispricing)) 0.1.

Definition isHighlySignificant (mispricing : number) : bool :=
  Math.geb (Math.abs (clampedValue mispricing)) 0.2.

Definition getLabel (mispricing : number) : string :=
  if Math.ltb (Math.abs (clampedValue mispricing)) 0.05 then "Fairly Priced"
  else if isPositive mispricing
       then (if isHighlySignificant mispricing
             then "Strong Buy Signal" else "Undervalued")
       else (if isHighlySignificant mispricing
             then "Strong Sell Signal" else "Overvalued").

(** What the component hands to the DOM: the label (when [showLabels]),
    the side and width of the fill bar, whether the glow is drawn, and
    the figure under the bar: whether it is greyed out, whether it gets a
    plus sign, and the percentage given to [toFixed(1)]. *)
Record Rendered := {
  label : option string;
  fillRight : bool;
  fillWidth : number;
  glow : bool;
  muted : bool;
  plusSign : bool;
  shownPercent : number
}.

Definition render (props : MispricingGaugeProps) : Rendered :=
  let m := mispricing props in
  {| label := if showLabels props then Some (getLabel m) else None;
     fillRight := isPositive m;
     fillWidth := percentage m;
     glow := isSignificant m;
     muted := Math.ltb (Math.abs (clampedValue m)) 0.02;
     plusSign := Math.geb (clampedValue m) 0;
     shownPercent := clampedValue m * 100 |}.

(** The tier and the favoured side that each label announces. *)
Definition label_tier (label : string) : option Tier :=
  if String.eqb label "Fairly Priced" then Some SKIP
  else if String.eqb label "Undervalued" then Some LEAN
  else if String.eqb label "Overvalued" then Some LEAN
  else if String.eqb label "Strong Buy Signal" then Some STRONG
  else if String.eqb label "Strong Sell Signal" then Some STRONG
  else None.

Definition label_side (label : string) : option Side :=
  if String.eqb label "Undervalued" then Some Radiant
  else if String.eqb label "Strong Buy Signal" then Some Radiant
  else if String.eqb label "Overvalued" then Some Dire
  else if String.eqb label "Strong Sell Signal" then Some Dire
  else None.
End MispricingGauge.

(** ** The comparator as the specification words it

  [clamp], the tier table and the favoured side, written from the
  sentences of the specification and parameterised by the thresholds the
  specification wants configurable.  They are compared below with what
  the gauge computes. *)

Module Spec.
Local Open Scope Q_scope.

Definition clamp (x lo hi : number) : number :=
  if Math.ltb x lo then lo else if Math.ltb hi x then hi else x.

Record Thresholds := { lean_from : number; strong_from : number }.

Definition defaults : Thresholds :=
  {| lean_from := 0.05; strong_from := 0.20 |}.

Definition tier (cfg : Thresholds) (index : number) : Tier :=
  if Math.ltb (Qabs index) (lean_from cfg) then SKIP
  else if Math.ltb (Qabs index) (strong_from cfg) then LEAN
  else STRONG.

Definition side (index : number) : option Side :=
  if Math.ltb 0 index then Some Radiant
  else if Math.ltb index 0 then Some Dire
  else None.
End Spec.

(** ** Bet signals of the match pages

    [MatchDetailPage] (the match detail page) and [FeaturedMatch.tsx]
    derive a signal from the two win probabilities of a match, rounded to
    whole percents.  Of the match record only the two probabilities are
    read by the signal. *)

Record Match := {
  radiant_win_prob : number;
  dire_win_prob : number
}.

Module MatchDetailPage.
Local Open Scope Z_scope.

Record BetSignal := {
  icon : string;
  text : string;
  color : string;
  safe : bool
}.

Definition radiantProb (m : Match) : Z := Math.round (radiant_win_prob m * 100)%Q.
Definition direProb (m : Match) : Z := Math.round (dire_win_prob m * 100)%Q.

Definition getBetSignal (m : Match) : BetSignal :=
  if 65 <=? radiantProb m then
    {| icon := "🟢"; text := "STRONG VALUE - RADIANT"; color := "emerald"; safe := true |}
  else if 65 <=? direProb m then
    {| icon := "🟢"; text := "STRONG VALUE - DIRE"; color := "emerald"; safe := true |}
  else if 55 <=? radiantProb m then
    {| icon := "🟡"; text := "LEAN RADIANT"; color := "amber"; safe := false |}
  else if 55 <=? direProb m then
    {| icon := "🟡"; text := "LEAN DIRE"; color := "amber"; safe := false |}
  else
    {| icon := "⚪"; text := "CLOSE MATCH - SKIP"; color := "stone"; safe := false |}.
End MatchDetailPage.

Module FeaturedMatch.
Local Open Scope Z_scope.

Record BetSignal := {
  text : string;
  color : string;
  side : string
}.

Definition radiantProb (m : Match) : Z := Math.round (radiant_win_prob m * 100)%Q.
Definition direProb (m : Match) : Z := Math.round (dire_win_prob m * 100)%Q.

Definition getBetSignal (m : Match) : BetSignal :=
  if 65 <=? radiantProb m then
    {| text := "RADIANT VALUE"; color := "emerald"; side := "radiant" |}
  else if 65 <=? direProb m then
    {| text := "DIRE VALUE"; color := "emerald"; side := "dire" |}
  else if 55 <=? radiantProb m then
    {| text := "LEAN RADIANT"; color := "amber"; side := "radiant" |}
  else if 55 <=? direProb m then
    {| text := "LEAN DIRE"; color := "amber"; side := "dire" |}
  else
    {| text := "CLOSE MATCH"; color := "stone"; side := "none" |}.
End FeaturedMatch.

(** The tier a signal's colour stands for on both pages. *)
Definition color_tier (color : string) : option Tier :=
  if String.eqb color "emerald" then Some STRONG
  else if String.eqb color "amber" then Some LEAN
  else if String.eqb color "stone" then Some SKIP
  else None.

(** The tier of a pair of whole percentages when LEAN starts at [lean]
    percent and STRONG at [strong] percent, for either team. *)
Definition percent_tier (lean strong radiant dire : Z) : Tier :=
  if ((strong <=? radiant) || (strong <=? dire))%Z then STRONG
  else if ((lean <=? radiant) || (lean <=? dire))%Z then LEAN
  else SKIP.

(** ** JavaScript values, exceptions and effects *)

Module Js.

(** What [JSON.parse] can return, plus [undefined] for absent properties. *)
Inductive jsval :=
| JUndefined
| JNull
| JBool (b : bool)
| JNum (n : number)
| JString (s : string)
| JArray (items : list jsval)
| JObject (props : gmap string jsval).

Inductive exn := SyntaxError | TypeError.

(** How a statement list ends: normally, or by an exception on its way to
    the nearest [catch]. *)
Inductive completion (A : Type) :=
| Normal (a : A)
| Throw (e : exn).
Arguments Normal {A} a.
Arguments Throw {A} e.

(** A computation over a mutable world [W].  An exception keeps the world
    as mutated up to the throw, as in JavaScript. *)
Definition Eff (W A : Type) : Type := W -> completion A * W.

Definition ret {W A} (a : A) : Eff W A := fun w => (Normal a, w).

Definition throw {W A} (e : exn) : Eff W A := fun w => (Throw e, w).

Definition bind {W A B} (m : Eff W A) (k : A -> Eff W B) : Eff W B :=
  fun w =>
    match m w with
    | (Normal a, w') => k a w'
    | (Throw e, w') => (Throw e, w')
    end.

Definition try_catch {W A} (body : Eff W A) (handler : exn -> Eff W A) : Eff W A :=
  fun w =>
    match body w with
    | (Normal a, w') => (Normal a, w')
    | (Throw e, w') => handler e w'
    end.

Definition modify {W} (f : W -> W) : Eff W unit := fun w => (Normal tt, f w).

Definition when {W} (c : bool) (m : Eff W unit) : Eff W unit :=
  if c then m else ret tt.

(** The property names the message handlers read.  None of them is
    inherited from a builtin prototype, so a read on a primitive or on an
    array yields [undefined]. *)
Inductive field := f_type | f_win_probability | f_timestamp | f_model_win_probability.

Definition field_name (f : field) : string :=
  match f with
  | f_type => "type"
  | f_win_probability => "win_probability"
  | f_timestamp => "timestamp"
  | f_model_win_probability => "model_win_probability"
  end.

(** [v.f]: a [TypeError] on [null] and [undefined], the own property of an
    object (or [undefined]), [undefined] on anything else. *)
Definition get (v : jsval) (f : field) : completion jsval :=
  match v with
  | JUndefined | JNull => Throw TypeError
  | JObject props => Normal (default JUndefined (props !! field_name f))
  | _ => Normal JUndefined
  end.

Definition get_prop {W} (v : jsval) (f : field) : Eff W jsval :=
  fun w => (get v f, w).

(** [v?.f] *)
Definition optional_get (v : jsval) (f : field) : jsval :=
  match v with
  | JUndefined | JNull => JUndefined
  | JObject props => default JUndefined (props !! field_name f)
  | _ => JUndefined
  end.

(** [v ?? d] *)
Definition nullish (v d : jsval) : jsval :=
  match v with
  | JUndefined | JNull => d
  | _ => v
  end.

(** [v === 'text'] *)
Definition strict_eq_string (v : jsval) (s : string) : bool :=
  match v with
  | JString s' => String.eqb s' s
  | _ => false
  end.

(** [v !== undefined] *)
Definition is_defined (v : jsval) : bool :=
  match v with
  | JUndefined => false
  | _ => true
  end.

Inductive ConsoleEntry :=
| console_log (msg : string) (args : list jsval)
| console_error (msg : string) (e : option exn).

End Js.

Declare Scope eff_scope.
Delimit Scope eff_scope with eff.
Notation "'let*' x ':=' m 'in' k" := (Js.bind m (fun x => k))
  (at level 10, x name, m at level 100, k at level 200) : eff_scope.
Notation "m ';;' k" := (Js.bind m (fun _ => k))
  (at level 100, right associativity) : eff_scope.

(** ** [frontend/src/store/useAppStore.ts] *)

Module AppStore.

Inductive ConnectionStatus := connected | disconnected | connecting.
Inductive Page := dashboard | analytics | settings.

(** The interface types [game_time] as a number; the store still guards
    it against [null], so the field is optional here. *)
Record GameState := {
  type_ : string;
  match_id : option string;
  is_verified : bool;
  game_time : option number;
  gold_diff : number;
  xp_diff : number;
  networth_velocity : number;
  model_win_probability : number;
  market_implied_probability : number;
  market_odds_radiant : number;
  mispricing_index : number;
  draft_radiant_score : number;
  series_score_diff : number;
  is_mock_odds : bool
}.

Record Point := { time : number; model : number; market : number }.

Record AppState := {
  connectionStatus : ConnectionStatus;
  gameState : option GameState;
  probabilityHistory : list Point;
  currentPage : Page
}.

Definition MAX_HISTORY_POINTS : Z := 60.

(** [Array.prototype.slice(start)]: a negative [start] counts from the
    end, and both ends are clipped to the array. *)
Definition slice {A} (start : Z) (l : list A) : list A :=
  let len := Z.of_nat (length l) in
  let k := if (start <? 0)%Z then Z.max (len + start) 0 else Z.min start len in
  drop (Z.to_nat k) l.

(** The last [n] elements of a list, oldest first: what a buffer of
    capacity [n] with drop-oldest holds after the list went through it. *)
Definition last_n {A} (n : nat) (l : list A) : list A := drop (length l - n) l.

Definition initial : AppState :=
  {| connectionStatus := connecting;
     gameState := None;
     probabilityHistory := [];
     currentPage := dashboard |}.

Definition setConnectionStatus (status : ConnectionStatus) (st : AppState) : AppState :=
  {| connectionStatus := status;
     gameState := gameState st;
     probabilityHistory := probabilityHistory st;
     currentPage := currentPage st |}.

Definition addProbabilityPoint (time model market : number) (st : AppState) : AppState :=
  let newPoint := {| time := time; model := model; market := market |} in
  let newHistory := probabilityHistory st ++ [newPoint] in
  let kept :=
    if (MAX_HISTORY_POINTS <? Z.of_nat (length newHistory))%Z
    then slice (- MAX_HISTORY_POINTS) newHistory
    else newHistory in
  {| connectionStatus := connectionStatus st;
     gameState := gameState st;
     probabilityHistory := kept;
     currentPage := currentPage st |}.

Definition updateGameState (state : GameState) (st : AppState) : AppState :=
  let st1 :=
    {| connectionStatus := connectionStatus st;
       gameState := Some state;
       probabilityHistory := probabilityHistory st;
       currentPage := currentPage st |} in
  match game_time state with
  | Some t =>
      addProbabilityPoint t (model_win_probability state)
        (market_implied_probability state) st1
  | None => st1
  end.

Definition setCurrentPage (page : Page) (st : AppState) : AppState :=
  {| connectionStatus := connectionStatus st;
     gameState := gameState st;
     probabilityHistory := probabilityHistory st;
     currentPage := page |}.

(** The calls a client can make on the store. *)
Inductive Action :=
| SetConnectionStatus (status : ConnectionStatus)
| UpdateGameState (state : GameState)
| AddProbabilityPoint (time model market : number)
| SetCurrentPage (page : Page).

Definition dispatch (st : AppState) (a : Action) : AppState :=
  match a with
  | SetConnectionStatus status => setConnectionStatus status st
  | UpdateGameState state => updateGameState state st
  | AddProbabilityPoint t m k => addProbabilityPoint t m k st
  | SetCurrentPage page => setCurrentPage page st
  end.

Definition run (actions : list Action) (st : AppState) : AppState :=
  foldl dispatch st actions.

(** Appending the points of a list, oldest first. *)
Definition addPoints (pts : list Point) (st : AppState) : AppState :=
  foldl (fun s p => addProbabilityPoint (time p) (model p) (market p) s) st pts.

End AppStore.

(** ** [frontend/src/store/useGameStore.js] *)

Module GameStore.
Import Js.

Record State := {
  winProbability : jsval;
  gameTime : jsval;
  isConnected : bool;
  lastUpdate : Z          (* milliseconds, as [Date.now()] reports them *)
}.

(** The store as created at time [now]. *)
Definition initial (now : Z) : State :=
  {| winProbability := JNum 0.5%Q;
     gameTime := JNum 0%Q;
     isConnected := false;
     lastUpdate := now |}.

Definition setWinProbability (prob : jsval) (st : State) : State :=
  {| winProbability := prob;
     gameTime := gameTime st;
     isConnected := isConnected st;
     lastUpdate := lastUpdate st |}.

Definition setGameTime (time : jsval) (st : State) : State :=
  {| winProbability := winProbability st;
     gameTime := time;
     isConnected := isConnected st;
     lastUpdate := lastUpdate st |}.

Definition setConnectionStatus (status : bool) (st : State) : State :=
  {| winProbability := winProbability st;
     gameTime := gameTime st;
     isConnected := status;
     lastUpdate := lastUpdate st |}.

Definition updateLastTimestamp (now : Z) (st : State) : State :=
  {| winProbability := winProbability st;
     gameTime := gameTime st;
     isConnected := isConnected st;
     lastUpdate := now |}.

Definition reset (st : State) : State :=
  {| winProbability := JNum 0.5%Q;
     gameTime := JNum 0%Q;
     isConnected := false;
     lastUpdate := lastUpdate st |}.

(** The three defaults the store documents. *)
Definition at_defaults (st : State) : Prop :=
  winProbability st = JNum 0.5%Q
  /\ gameTime st = JNum 0%Q
  /\ isConnected st = false.

End GameStore.

(** [JSON.parse] is the platform's: the handlers are stated over any
    parser, [None] standing for the [SyntaxError] it throws. *)
Definition JSON_parse_with {W} (parser : string -> option Js.jsval) (text : string)
  : Js.Eff W Js.jsval :=
  match parser text with
  | Some v => Js.ret v
  | None => Js.throw Js.SyntaxError
  end.

(** ** [frontend/src/hooks/useWebSocket.js] *)

Module WebSocketHook.
Import Js.
Local Open Scope eff_scope.

(** What the handlers can touch: the game store and the console. *)
Record Tab := {
  store : GameStore.State;
  console : list ConsoleEntry
}.

Definition console_write (e : ConsoleEntry) : Eff Tab unit :=
  modify (fun w => {| store := store w; console := console w ++ [e] |}).

Definition on_store (f : GameStore.State -> GameStore.State) : Eff Tab unit :=
  modify (fun w => {| store := f (store w); console := console w |}).

Section Handlers.
Variable JSON_parse : string -> option jsval.

Definition onopen : Eff Tab unit :=
  console_write (console_log "WebSocket Connected" []) ;;
  on_store (GameStore.setConnectionStatus true).

(** [now] is what [Date.now()] returns inside [updateLastTimestamp]. *)
Definition onmessage (now : Z) (event_data : string) : Eff Tab unit :=
  try_catch
    (let* data := JSON_parse_with JSON_parse event_data in
     let* type := get_prop data f_type in
     when (strict_eq_string type "update")
       (let* win_probability := get_prop data f_win_probability in
        on_store (GameStore.setWinProbability win_probability) ;;
        let* timestamp := get_prop data f_timestamp in
        on_store (GameStore.setGameTime timestamp) ;;
        on_store (GameStore.updateLastTimestamp now)))
    (fun e => console_write (console_error "Error parsing WS message:" (Some e))).

(** The reconnect that [onclose] schedules shows up as a later open. *)
Definition onclose : Eff Tab unit :=
  console_write (console_log "WebSocket Disconnected" []) ;;
  on_store (GameStore.setConnectionStatus false).

(** [onerror] logs and closes the socket; the close arrives as its own
    event. *)
Definition onerror : Eff Tab unit :=
  console_write (console_error "WebSocket Error:" None).

End Handlers.
End WebSocketHook.

(** ** [frontend/src/components/Dashboard.jsx] *)

Module Dashboard.
Import Js.

Record State := {
  tab : WebSocketHook.Tab;
  isDead : bool
}.

Definition initial (now : Z) : State :=
  {| tab := {| WebSocketHook.store := GameStore.initial now;
               WebSocketHook.console := [] |};
     isDead := false |}.

Definition store (d : State) : GameStore.State := WebSocketHook.store (tab d).

(** The deadman switch: the body of the callback given to [setInterval],
    run when [Date.now()] is [now]. *)
Definition interval_tick (now : Z) (d : State) : State :=
  {| tab := tab d;
     isDead :=
       if (2000 <? now - GameStore.lastUpdate (store d))%Z
          && GameStore.isConnected (store d)
       then true else false |}.

(** The two figures printed before the percent signs. *)
Definition radiantWin (winProbability : number) : NumberFormat.Fixed1 :=
  NumberFormat.toFixed1 (winProbability * 100)%Q.

Definition direWin (winProbability : number) : NumberFormat.Fixed1 :=
  NumberFormat.toFixed1 (100 - winProbability * 100)%Q.

Definition getWinColor (prob : number) : string :=
  if Math.ltb 0.6%Q prob then "text-success"
  else if Math.ltb prob 0.4%Q then "text-error"
  else "text-warning".

(** What the component renders from its state: the connection badge, the
    NO DATA badge, and the two store values the figures are printed
    from.  There is no other branch in the component. *)
Record View := {
  connectionBadge : string;
  noDataBadge : bool;
  shownWinProbability : jsval;
  shownGameTime : jsval
}.

Definition view (d : State) : View :=
  {| connectionBadge := if GameStore.isConnected (store d) then "LIVE" else "OFFLINE";
     noDataBadge := isDead d;
     shownWinProbability := GameStore.winProbability (store d);
     shownGameTime := GameStore.gameTime (store d) |}.

(** What can happen to a mounted dashboard. *)
Inductive Event :=
| SocketOpen
| SocketMessage (now : Z) (event_data : string)
| SocketClose
| SocketError
| IntervalTick (now : Z).

Section Run.
Variable JSON_parse : string -> option jsval.

Definition handler (ev : Event) : Eff WebSocketHook.Tab unit :=
  match ev with
  | SocketOpen => WebSocketHook.onopen
  | SocketMessage now event_data => WebSocketHook.onmessage JSON_parse now event_data
  | SocketClose => WebSocketHook.onclose
  | SocketError => WebSocketHook.onerror
  | IntervalTick _ => ret tt
  end.

Definition step (d : State) (ev : Event) : State :=
  match ev with
  | IntervalTick now => interval_tick now d
  | _ => {| tab := snd (handler ev (tab d)); isDead := isDead d |}
  end.

Definition run (events : list Event) (d : State) : State :=
  foldl step d events.

(** A message that the handler treats as an update: it parses and its
    [type] is the string [update]. *)
Definition is_update (ev : Event) : bool :=
  match ev with
  | SocketMessage _ event_data =>
      match JSON_parse event_data with
      | Some data =>
          match get data f_type with
          | Normal type => strict_eq_string type "update"
          | Throw _ => false
          end
      | None => false
      end
  | _ => false
  end.

End Run.
End Dashboard.

(** ** [frontend/src/pages/SpectatePage.tsx] *)

Module SpectatePage.
Import Js.
Local Open Scope eff_scope.

Record State := {
  app : AppStore.AppState;
  prediction : jsval;              (* [null] until the first update *)
  console : list ConsoleEntry
}.

Definition initial : State :=
  {| app := AppStore.initial; prediction := JNull; console := [] |}.

Definition console_write (e : ConsoleEntry) : Eff State unit :=
  modify (fun w =>
    {| app := app w; prediction := prediction w; console := console w ++ [e] |}).

Definition setConnectionStatus (status : AppStore.ConnectionStatus) : Eff State unit :=
  modify (fun w =>
    {| app := AppStore.setConnectionStatus status (app w);
       prediction := prediction w;
       console := console w |}).

Definition setPrediction (data : jsval) : Eff State unit :=
  modify (fun w => {| app := app w; prediction := data; console := console w |}).

Section Handlers.
Variable JSON_parse : string -> option jsval.

Definition onopen : Eff State unit :=
  console_write (console_log "WebSocket connected" []) ;;
  setConnectionStatus AppStore.connected.

Definition onclose : Eff State unit :=
  console_write (console_log "WebSocket disconnected" []) ;;
  setConnectionStatus AppStore.disconnected.

Definition onerror : Eff State unit :=
  console_write (console_error "WebSocket error:" None) ;;
  setConnectionStatus AppStore.disconnected.

Definition onmessage (event_data : string) : Eff State unit :=
  try_catch
    (let* data := JSON_parse_with JSON_parse event_data in
     console_write (console_log "Received prediction:" [data]) ;;
     let* type := get_prop data f_type in
     if strict_eq_string type "update"
     then (let* model_win_probability := get_prop data f_model_win_probability in
           when (is_defined model_win_probability) (setPrediction data))
     else ret tt)
    (fun err => console_write (console_error "Error parsing WebSocket message:" (Some err))).

End Handlers.

(** [prediction?.model_win_probability ?? 0.5] *)
Definition radiantProb (prediction : jsval) : jsval :=
  nullish (optional_get prediction f_model_win_probability) (JNum 0.5%Q).

(** [1 - radiantProb], on the number [radiantProb] is typed as. *)
Definition direProb (radiantProb : number) : number := (1 - radiantProb)%Q.

(** The two figures printed before the percent signs:
    [(radiantProb * 100).toFixed(1)] and [(direProb * 100).toFixed(1)]. *)
Definition radiantPercent (radiantProb : number) : NumberFormat.Fixed1 :=
  NumberFormat.toFixed1 (radiantProb * 100)%Q.

Definition direPercent (direProb : number) : NumberFormat.Fixed1 :=
  NumberFormat.toFixed1 (direProb * 100)%Q.

End SpectatePage.

(** ** Sample traffic

    Four frames as the server could send them, with the values
    [JSON.parse] gives for them; [sample_JSON_parse] knows these frames
    and treats any other text as malformed.  They serve to run the
    handlers on concrete messages. *)

Module Samples.
Import Js.

Definition quoted (s : string) : string :=
  String (Ascii.ascii_of_nat 34) (String.append s (String (Ascii.ascii_of_nat 34) EmptyString)).

(** [{"type":"heartbeat"}] *)
Definition heartbeat_frame : string :=
  String.append "{" (String.append (quoted "type")
    (String.append ":" (String.append (quoted "heartbeat") "}"))).

Definition heartbeat : jsval := JObject {[ "type" := JString "heartbeat" ]}.

(** [{"type":"update","win_probability":0.7,"timestamp":120}] *)
Definition update_frame : string :=
  String.append "{" (String.append (quoted "type")
    (String.append ":" (String.append (quoted "update")
    (String.append "," (String.append (quoted "win_probability")
    (String.append ":0.7," (String.append (quoted "timestamp") ":120}"))))))).

Definition update : jsval :=
  JObject {[ "type" := JString "update";
             "win_probability" := JNum 0.7%Q;
             "timestamp" := JNum 120%Q ]}.

(** [{"type":"update","model_win_probability":0.62}] *)
Definition prediction_frame : string :=
  String.append "{" (String.append (quoted "type")
    (String.append ":" (String.append (quoted "update")
    (String.append "," (String.append (quoted "model_win_probability") ":0.62}"))))).

Definition prediction : jsval :=
  JObject {[ "type" := JString "update";
             "model_win_probability" := JNum 0.62%Q ]}.

Definition sample_JSON_parse (text : string) : option jsval :=
  if String.eqb text "null" then Some JNull
  else if String.eqb text heartbeat_frame then Some heartbeat
  else if String.eqb text update_frame then Some update
  else if String.eqb text prediction_frame then Some prediction
  else None.

End Samples.

(** * Further components

    The rest of the client that carries behaviour: more builtins, the
    remaining signal and colour helpers, the time formatters, the home
    page's ranking, the match list's pagination, the navigation links,
    and runs of the spectate page. *)

(** ** Builtins: [Math.PI], [Math.floor], [Math.ceil], [%], [slice], [sort] *)

Module MathExt.
Local Open Scope Q_scope.

(** [Math.PI] is this double, exactly. *)
Definition PI : number := 884279719003555 # 281474976710656.

Definition floor (x : number) : Z := Qfloor x.
Definition ceil (x : number) : Z := Qceiling x.

(** Rounding towards zero. *)
Definition trunc (x : number) : Z := if Math.leb 0 x then Qfloor x else Qceiling x.

(** [a % b] for a divisor other than zero: what is left of [a] after
    taking out [b] a whole number of times, counted towards zero. *)
Definition rem (a b : number) : number := a - b * inject_Z (trunc (a / b)).

(** [Math.max] and [Math.min] on whole numbers. *)
Definition maxZ (a b : Z) : Z := if (a <=? b)%Z then b else a.
Definition minZ (a b : Z) : Z := if (a <=? b)%Z then a else b.
End MathExt.

Module JsArray.

(** [Array.prototype.slice(start, end)]: negative indices count from the
    end, both are clipped to the array, and an end before the start
    gives the empty array. *)
Definition slice2 {A} (start end_ : Z) (l : list A) : list A :=
  let len := Z.of_nat (length l) in
  let clip := fun i : Z => if (i <? 0)%Z then Z.max (len + i) 0 else Z.min i len in
  take (Z.to_nat (clip end_ - clip start)) (drop (Z.to_nat (clip start)) l).

(** [l[0]] *)
Definition first {A} (l : list A) : option A := l !! 0.

(** [Array.prototype.sort(compareFn)].  The sort is stable and, for a
    comparator that is a consistent ordering, its result is determined:
    [a] stands after [b] when [compareFn a b > 0], and elements the
    comparator does not separate keep their order.  Insertion from the
    right computes that result. *)
Fixpoint insert_sorted {A} (compareFn : A -> A -> number) (x : A) (l : list A) : list A :=
  match l with
  | [] => [x]
  | y :: l' =>
      if Math.ltb 0%Q (compareFn x y) then y :: insert_sorted compareFn x l'
      else x :: y :: l'
  end.

Definition sort {A} (compareFn : A -> A -> number) (l : list A) : list A :=
  foldr (insert_sorted compareFn) [] l.

End JsArray.

(** ** [components/MatchCard.tsx] (second part of the hook's file) *)

Module MatchCard.
Local Open Scope Z_scope.

Record BetSignal := {
  icon : string;
  text : string;
  color : string
}.

Definition radiantProb (m : Match) : Z := Math.round (radiant_win_prob m * 100)%Q.
Definition direProb (m : Match) : Z := Math.round (dire_win_prob m * 100)%Q.

Definition getBetSignal (m : Match) : BetSignal :=
  if 65 <=? radiantProb m then
    {| icon := "🟢"; text := "RADIANT VALUE"; color := "emerald" |}
  else if 65 <=? direProb m then
    {| icon := "🟢"; text := "DIRE VALUE"; color := "emerald" |}
  else if 55 <=? radiantProb m then
    {| icon := "🟡"; text := "LEAN"; color := "amber" |}
  else if 55 <=? direProb m then
    {| icon := "🟡"; text := "LEAN"; color := "amber" |}
  else
    {| icon := "⚪"; text := "SKIP"; color := "stone" |}.

End MatchCard.

(** What the featured card and the detail page print around a signal. *)
Module SignalBox.

(** [FeaturedMatch.tsx]: the emoji and the caption chosen from the colour. *)
Definition featuredIcon (color : string) : string :=
  if String.eqb color "emerald" then "🟢"
  else if String.eqb color "amber" then "🟡"
  else "⚪".

Definition featuredCaption (color : string) : string :=
  if String.eqb color "emerald" then "Strong prediction - Consider betting"
  else if String.eqb color "amber" then "Slight edge detected"
  else "Game too close to call".

(** The detail page: the caption chosen from [safe], then the colour. *)
Definition detailCaption (signal : MatchDetailPage.BetSignal) : string :=
  if MatchDetailPage.safe signal then "✓ Safe threshold reached - Consider betting"
  else if String.eqb (MatchDetailPage.color signal) "amber"
       then "Slight edge detected - Proceed with caution"
       else "Game too close to recommend a bet".
End SignalBox.

(** ** [frontend/src/components/ProbabilityRing.tsx] *)

Module ProbabilityRing.
Local Open Scope Q_scope.

Inductive TeamColor := radiant | dire.

Record ProbabilityRingProps := {
  probability : number;   (* 0-1 *)
  label : string;
  size : number;
  strokeWidth : number;
  teamColor : TeamColor
}.

(** The defaults of the destructured props. *)
Definition withDefaults (probability : number) : ProbabilityRingProps :=
  {| probability := probability;
     label := "Win Probability";
     size := 200;
     strokeWidth := 12;
     teamColor := radiant |}.

Definition radius (props : ProbabilityRingProps) : number :=
  (size props - strokeWidth props) / 2.

Definition circumference (props : ProbabilityRingProps) : number :=
  2 * MathExt.PI * radius props.

Definition progress (props : ProbabilityRingProps) : number :=
  Math.min 1 (Math.max 0 (probability props)).

Definition offset (props : ProbabilityRingProps) : number :=
  circumference props - progress props * circumference props.

Definition getColor (props : ProbabilityRingProps) : string :=
  match teamColor props with
  | radiant =>
      if Math.geb (probability props) 0.6 then "#4ade80"
      else if Math.geb (probability props) 0.4 then "#f59e0b"
      else "#f87171"
  | dire =>
      if Math.leb (probability props) 0.4 then "#4ade80"
      else if Math.leb (probability props) 0.6 then "#f59e0b"
      else "#f87171"
  end.
End ProbabilityRing.

(** ** [frontend/src/components/StatCard.tsx] *)

Module StatCard.

Inductive Trend := up | down | neutral.

Definition getTrendColor (trend : Trend) : string :=
  match trend with
  | up => "text-emerald-400"
  | down => "text-rose-400"
  | neutral => "text-stone-300"
  end.

(** [null] when there is no arrow to draw. *)
Definition getTrendIcon (trend : Trend) : option string :=
  match trend with
  | up => Some "↑"
  | down => Some "↓"
  | neutral => None
  end.
End StatCard.

(** ** [components/Dashboard.tsx] (second part of the icons' file) *)

Module DashboardCard.
Local Open Scope Q_scope.

(** The parts [formatTime] prints: a minus sign for a negative time,
    the minutes, and the seconds it pads to two digits. *)
Record Clock := {
  negative : bool;
  mins : Z;
  secs : number
}.

Definition formatTime (seconds : number) : Clock :=
  {| negative := Math.ltb seconds 0;
     mins := MathExt.floor (Math.abs seconds / 60);
     secs := MathExt.rem (Math.abs seconds) 60 |}.

Definition getVelocityTrend (velocity : number) : StatCard.Trend :=
  if Math.ltb 10 velocity then StatCard.up
  else if Math.ltb velocity (-10) then StatCard.down
  else StatCard.neutral.

(** The trend passed to the gold card. *)
Definition goldTrend (gold_diff : number) : StatCard.Trend :=
  if Math.ltb 0 gold_diff then StatCard.up
  else if Math.ltb gold_diff 0 then StatCard.down
  else StatCard.neutral.
End DashboardCard.

(** [formatTime] of the spectate page: the same, without the sign. *)
Module SpectateClock.
Local Open Scope Q_scope.

Record Clock := {
  mins : Z;
  secs : number
}.

Definition formatTime (seconds : number) : Clock :=
  {| mins := MathExt.floor (Math.abs seconds / 60);
     secs := MathExt.rem (Math.abs seconds) 60 |}.
End SpectateClock.

(** ** [frontend/src/pages/HomePage.tsx] *)

Module HomePage.

Record LiveMatch := {
  match_id : string;
  league_name : string;
  radiant_team : string;
  dire_team : string;
  game_time : number;
  game_time_formatted : string;
  radiant_score : number;
  dire_score : number;
  gold_diff : number;
  xp_diff : number;
  radiant_win_prob : number;
  dire_win_prob : number;
  confidence : string;
  spectators : number
}.

(** [(a, b) => b.spectators - a.spectators] *)
Definition bySpectators (a b : LiveMatch) : number := (spectators b - spectators a)%Q.

Definition sortedMatches (liveMatches : list LiveMatch) : list LiveMatch :=
  JsArray.sort bySpectators liveMatches.

(** [a] is ranked no lower than [b]. *)
Definition at_least_as_watched (a b : LiveMatch) : Prop :=
  (spectators b <= spectators a)%Q.

(** [sortedMatches[0]], [undefined] for an empty list. *)
Definition featuredMatch (liveMatches : list LiveMatch) : option LiveMatch :=
  JsArray.first (sortedMatches liveMatches).

Definition otherMatches (liveMatches : list LiveMatch) : list LiveMatch :=
  JsArray.slice2 1 7 (sortedMatches liveMatches).

End HomePage.

(** ** [pages/MatchesPage.tsx] (second part of the contact page's file) *)

Module MatchesPage.

Definition matchesPerPage : Z := 12.

Definition totalPages {A} (liveMatches : list A) : Z :=
  MathExt.ceil (inject_Z (Z.of_nat (length liveMatches)) / inject_Z matchesPerPage)%Q.

Definition paginatedMatches {A} (currentPage : Z) (liveMatches : list A) : list A :=
  JsArray.slice2 ((currentPage - 1) * matchesPerPage) (currentPage * matchesPerPage)
    liveMatches.

(** The updaters behind the Previous and Next buttons. *)
Definition previous (p : Z) : Z := MathExt.maxZ 1 (p - 1).

Definition next {A} (liveMatches : list A) (p : Z) : Z :=
  MathExt.minZ (totalPages liveMatches) (p + 1).

Record State (A : Type) := {
  liveMatches : list A;
  loading : bool;
  error : option string;
  currentPage : Z
}.
Arguments liveMatches {A} s.
Arguments loading {A} s.
Arguments error {A} s.
Arguments currentPage {A} s.

(** A string or [null] used as a condition. *)
Definition truthy (s : option string) : bool :=
  match s with
  | Some e => negb (String.eqb e EmptyString)
  | None => false
  end.

(** The block of the page that is rendered below the tabs; the four
    conditions of the component exclude each other. *)
Inductive Block (A : Type) :=
| Spinner
| ErrorBlock
| EmptyState
| Grid (cards : list A) (pagination : bool)
| Nothing.
Arguments Spinner {A}.
Arguments ErrorBlock {A}.
Arguments EmptyState {A}.
Arguments Grid {A} cards pagination.
Arguments Nothing {A}.

Definition view {A} (s : State A) : Block A :=
  if loading s then Spinner
  else if truthy (error s) then ErrorBlock
  else if (Z.of_nat (length (liveMatches s)) =? 0)%Z then EmptyState
  else if (0 <? Z.of_nat (length (paginatedMatches (currentPage s) (liveMatches s))))%Z
       then Grid (paginatedMatches (currentPage s) (liveMatches s))
                 (1 <? totalPages (liveMatches s))%Z
       else Nothing.

End MatchesPage.

(** ** [frontend/src/components/Layout.tsx] *)

Module Layout.

(** [NavLink]'s [isActive] *)
Definition NavLink_isActive (pathname to : string) : bool :=
  String.eqb pathname to || (negb (String.eqb to "/") && String.prefix to pathname).

(** [MobileNavLink]'s [isActive] *)
Definition MobileNavLink_isActive (pathname to : string) : bool :=
  String.eqb pathname to.

Definition desktopLinks : list string := ["/"; "/matches"; "/accuracy"; "/about"].

End Layout.

(** ** Runs of the spectate page *)

Module SpectateRun.
Import Js.

Inductive Event :=
| SocketOpen
| SocketMessage (event_data : string)
| SocketClose
| SocketError.

(** [!prediction]: the page shows its waiting screen. *)
Definition waiting (prediction : jsval) : bool :=
  match prediction with
  | JUndefined | JNull => true
  | JBool b => negb b
  | JNum n => Qeq_bool n 0
  | JString s => String.eqb s EmptyString
  | JArray _ | JObject _ => false
  end.

Section Run.
Variable JSON_parse : string -> option jsval.

Definition handler (ev : Event) : Eff SpectatePage.State unit :=
  match ev with
  | SocketOpen => SpectatePage.onopen
  | SocketMessage event_data => SpectatePage.onmessage JSON_parse event_data
  | SocketClose => SpectatePage.onclose
  | SocketError => SpectatePage.onerror
  end.

Definition step (s : SpectatePage.State) (ev : Event) : SpectatePage.State :=
  snd (handler ev s).

Definition run (events : list Event) (s : SpectatePage.State) : SpectatePage.State :=
  foldl step s events.

(** The prediction a message puts on the page, if it does. *)
Definition accepted (ev : Event) : option jsval :=
  match ev with
  | SocketMessage event_data =>
      match JSON_parse event_data with
      | Some data =>
          match get data f_type with
          | Normal type =>
              if strict_eq_string type "update"
                 && is_defined (optional_get data f_model_win_probability)
              then Some data else None
          | Throw _ => None
          end
      | None => None
      end
  | _ => None
  end.

(** The status a socket event leaves. *)
Definition status_of (ev : Event) : option AppStore.ConnectionStatus :=
  match ev with
  | SocketOpen => Some AppStore.connected
  | SocketClose | SocketError => Some AppStore.disconnected
  | SocketMessage _ => None
  end.

End Run.
End SpectateRun.

(** ** Reading a run of the dashboard *)

Module DashboardTrace.
Import Js.

Section Trace.
Variable JSON_parse : string -> option jsval.

(** The arrival time and content of an update frame. *)
Definition update_of (ev : Dashboard.Event) : option (Z * jsval) :=
  match ev with
  | Dashboard.SocketMessage now event_data =>
      match JSON_parse event_data with
      | Some data =>
          match get data f_type with
          | Normal type => if strict_eq_string type "update" then Some (now, data) else None
          | Throw _ => None
          end
      | None => None
      end
  | _ => None
  end.

Definition last_update (events : list Dashboard.Event) : option (Z * jsval) :=
  last (omap update_of events).

(** What a socket event says about the connection. *)
Definition connection_of (ev : Dashboard.Event) : option bool :=
  match ev with
  | Dashboard.SocketOpen => Some true
  | Dashboard.SocketClose => Some false
  | _ => None
  end.

Definition last_connection (events : list Dashboard.Event) : option bool :=
  last (omap connection_of events).

End Trace.
End DashboardTrace.

(** ** Runs of [updateGameState] *)

Module AppStoreRuns.
Import AppStore.

(** The history point a game state contributes, if it has a game time. *)
Definition point_of (state : GameState) : option Point :=
  match game_time state with
  | Some t =>
      Some {| time := t;
              model := model_win_probability state;
              market := market_implied_probability state |}
  | None => None
  end.

Definition updateAll (states : list GameState) (st : AppState) : AppState :=
  foldl (fun s state => updateGameState state s) st states.

End AppStoreRuns.

(** ** A frame without the fields *)

Module BareUpdate.
Import Js.

(** [{"type":"update"}] *)
Definition frame : string :=
  String.append "{" (String.append (Samples.quoted "type")
    (String.append ":" (String.append (Samples.quoted "update") "}"))).

Definition props : gmap string jsval := {[ "type" := JString "update" ]}.

Definition parse (text : string) : option jsval :=
  if String.eqb text frame then Some (JObject props)
  else Samples.sample_JSON_parse text.

End BareUpdate.

(** * Properties *)

(** ** Comparisons and [Math] *)

Section MathFacts.
Local Open Scope Q_scope.

Lemma leb_true (x y : number) : Math.leb x y = true <-> x <= y.
Proof. apply Qle_bool_iff. Qed.

Lemma leb_false (x y : number) : Math.leb x y = false <-> y < x.
Proof.
  unfold Math.leb. rewrite <- not_true_iff_false, Qle_bool_iff.
  split; [apply Qnot_le_lt | apply Qlt_not_le].
Qed.

Lemma ltb_true (x y : number) : Math.ltb x y = true <-> x < y.
Proof. unfold Math.ltb. rewrite negb_true_iff. apply leb_false. Qed.

Lemma ltb_false (x y : number) : Math.ltb x y = false <-> y <= x.
Proof. unfold Math.ltb. rewrite negb_false_iff. apply leb_true. Qed.

(** The library's absolute value, split by the sign of its argument. *)
Lemma Qabs_sign (x : number) :
  (0 <= x /\ Qabs x == x) \/ (x < 0 /\ Qabs x == - x).
Proof.
  destruct (Qlt_le_dec x 0) as [Hneg | Hpos].
  - right. split; [exact Hneg | apply Qabs_neg; lra].
  - left. split; [exact Hpos | now apply Qabs_pos].
Qed.

End MathFacts.

(** Splits the goal on every comparison whose operands are already free of
    conditionals, innermost first, and keeps the rational inequality each
    branch stands for. *)
Ltac no_conditional t :=
  lazymatch t with
  | context [if _ then _ else _] => fail
  | _ => idtac
  end.

Ltac js_cases :=
  cbv beta iota delta [Math.max Math.min Math.abs Math.ltb Math.geb];
  repeat match goal with
    | |- context [Math.leb ?a ?b] =>
        no_conditional a; no_conditional b;
        let E := fresh "E" in
        destruct (Math.leb a b) eqn:E;
        [apply leb_true in E | apply leb_false in E];
        cbv beta iota delta [negb]
    | |- context [Qle_bool ?a ?b] =>
        no_conditional a; no_conditional b;
        change (Qle_bool a b) with (Math.leb a b)
    end.

(** ** The mispricing gauge *)

Section Gauge.
Import MispricingGauge.
Local Open Scope Q_scope.

(** The clamped value is one of its three candidates, by position. *)
Lemma clampedValue_cases (m : number) :
  (m < -1 /\ clampedValue m = -1)
  \/ (-1 <= m < 1 /\ clampedValue m = m)
  \/ (1 <= m /\ clampedValue m = 1).
Proof.
  unfold clampedValue. js_cases; first [right; left; split; [lra | reflexivity]
                                       | left; split; [lra | reflexivity]
                                       | right; right; split; [lra | reflexivity]
                                       | exfalso; lra].
Qed.

Lemma clampedValue_range (m : number) : -1 <= clampedValue m <= 1.
Proof.
  destruct (clampedValue_cases m) as [[H E] | [[H E] | [H E]]]; rewrite E; lra.
Qed.

Lemma clampedValue_idem (m : number) : clampedValue (clampedValue m) = clampedValue m.
Proof.
  destruct (clampedValue_cases m) as [[H E] | [[H E] | [H E]]]; rewrite E;
    try reflexivity.
  exact E.
Qed.

End Gauge.

Section GaugeClaims.
Import MispricingGauge.
Local Open Scope Q_scope.

(** The tier of the gauge's label is the specification's tier at the
    default thresholds, whatever the index. *)
Lemma label_tier_defaults (index : number) :
  label_tier (getLabel index) = Some (Spec.tier Spec.defaults index).
Proof.
  unfold getLabel, isPositive, isHighlySignificant, Spec.tier, Spec.defaults.
  cbn [Spec.lean_from Spec.strong_from].
  destruct (clampedValue_cases index) as [[H E] | [[H E] | [H E]]]; rewrite !E;
    destruct (Qabs_sign index) as [[Hs Ha] | [Hs Ha]];
    js_cases; first [reflexivity | exfalso; lra].
Qed.

(** The side of the gauge's label is the sign of the index, once the
    index is out of the SKIP band. *)
Lemma label_side_sign (index : number) :
  0.05 <= Qabs index -> label_side (getLabel index) = Spec.side index.
Proof.
  intros Hband.
  unfold getLabel, isPositive, isHighlySignificant, Spec.side.
  destruct (clampedValue_cases index) as [[H E] | [[H E] | [H E]]]; rewrite !E;
    destruct (Qabs_sign index) as [[Hs Ha] | [Hs Ha]];
    js_cases; first [reflexivity | exfalso; lra].
Qed.

(** C1.  For every mispricing index the gauge's label announces SKIP when
    |index| < 0.05, LEAN when 0.05 <= |index| < 0.20 and STRONG when
    |index| >= 0.20, and outside the SKIP band it favours Radiant for a
    positive index and Dire for a negative one.  In particular 0.03 is
    SKIP, 0.12 is LEAN, 0.25 is STRONG for the positive side and -0.30 is
    STRONG for the negative side. *)
Theorem getLabel_tiering (index : number) :
  (Qabs index < 0.05 -> label_tier (getLabel index) = Some SKIP)
  /\ (0.05 <= Qabs index < 0.20 -> label_tier (getLabel index) = Some LEAN)
  /\ (0.20 <= Qabs index -> label_tier (getLabel index) = Some STRONG)
  /\ (0.05 <= Qabs index -> 0 < index -> label_side (getLabel index) = Some Radiant)
  /\ (0.05 <= Qabs index -> index < 0 -> label_side (getLabel index) = Some Dire)
  /\ label_tier (getLabel 0.03) = Some SKIP
  /\ label_tier (getLabel 0.12) = Some LEAN
  /\ (label_tier (getLabel 0.25) = Some STRONG
      /\ label_side (getLabel 0.25) = Some Radiant)
  /\ (label_tier (getLabel (-0.30)) = Some STRONG
      /\ label_side (getLabel (-0.30)) = Some Dire).
Proof.
  repeat split; try reflexivity.
  - intros H. rewrite label_tier_defaults.
    unfold Spec.tier, Spec.defaults; cbn [Spec.lean_from Spec.strong_from].
    js_cases; first [reflexivity | exfalso; lra].
  - intros [H1 H2]. rewrite label_tier_defaults.
    unfold Spec.tier, Spec.defaults; cbn [Spec.lean_from Spec.strong_from].
    js_cases; first [reflexivity | exfalso; lra].
  - intros H. rewrite label_tier_defaults.
    unfold Spec.tier, Spec.defaults; cbn [Spec.lean_from Spec.strong_from].
    js_cases; first [reflexivity | exfalso; lra].
  - intros Hband Hpos. rewrite (label_side_sign index Hband).
    unfold Spec.side. js_cases; first [reflexivity | exfalso; lra].
  - intros Hband Hneg. rewrite (label_side_sign index Hband).
    unfold Spec.side. js_cases; first [reflexivity | exfalso; lra].
Qed.

(** The theorem at index 0.12: in the LEAN band, positive side. *)
Lemma getLabel_tiering_witness :
  label_tier (getLabel 0.12) = Some LEAN
  /\ label_side (getLabel 0.12) = Some Radiant.
Proof.
  destruct (getLabel_tiering 0.12) as (_ & Hlean & _ & Hrad & _).
  split.
  - apply Hlean. split; vm_compute; congruence.
  - apply Hrad; vm_compute; congruence.
Defined.

(** C2.  The gauge's index is the difference of the two probabilities
    clamped to [-1, 1]; whatever number it is given, the value it shows
    and tiers lies in [-1, 1], and nothing it renders depends on the
    input beyond that clamped value. *)
Theorem clampedValue_clamps (calibrated implied mispricing : number) (labels : bool) :
  clampedValue (calibrated - implied) == Spec.clamp (calibrated - implied) (-1) 1
  /\ -1 <= clampedValue mispricing <= 1
  /\ 0 <= percentage mispricing <= 50
  /\ render {| mispricing := clampedValue mispricing; showLabels := labels |}
     = render {| mispricing := mispricing; showLabels := labels |}.
Proof.
  split; [| split; [| split]].
  - unfold Spec.clamp.
    destruct (clampedValue_cases (calibrated - implied)) as [[H E] | [[H E] | [H E]]];
      rewrite E; js_cases; first [reflexivity | lra].
  - apply clampedValue_range.
  - unfold percentage. pose proof (clampedValue_range mispricing) as [Hlo Hhi].
    js_cases; lra.
  - unfold render, getLabel, percentage, isPositive, isSignificant, isHighlySignificant.
    cbn [MispricingGauge.mispricing MispricingGauge.showLabels].
    rewrite !clampedValue_idem. reflexivity.
Qed.

(** C3 as stated fails: with thresholds configured as 0.10 and 0.30, an
    index of 0.07 is SKIP for the configuration and LEAN on the gauge. *)
Lemma thresholds_not_read_from_configuration :
  label_tier (getLabel 0.07)
  <> Some (Spec.tier {| Spec.lean_from := 0.10; Spec.strong_from := 0.30 |} 0.07).
Proof. vm_compute. discriminate. Qed.

(** A configuration reproduces the gauge's tiers exactly when it is the
    pair of literals 0.05 and 0.20. *)
Lemma gauge_thresholds_unique (cfg : Spec.Thresholds) :
  (forall index, label_tier (getLabel index) = Some (Spec.tier cfg index))
  <-> (Spec.lean_from cfg == 0.05 /\ Spec.strong_from cfg == 0.20).
Proof.
  split.
  - intros Hall.
    assert (Hcfg : forall index, Spec.tier cfg index = Spec.tier Spec.defaults index).
    { intros index. specialize (Hall index). rewrite label_tier_defaults in Hall.
      congruence. }
    pose proof (Hcfg 0.05) as H1. pose proof (Hcfg 0.20) as H2.
    assert (Hlo : ~ Spec.lean_from cfg < 0.05).
    { intros Hlt.
      destruct (Qlt_le_dec 0 (Spec.lean_from cfg)) as [Hpos | Hnonpos].
      - pose proof (Hcfg (Spec.lean_from cfg)) as H3. revert H3.
        unfold Spec.tier, Spec.defaults; cbn [Spec.lean_from Spec.strong_from].
        destruct (Qabs_sign (Spec.lean_from cfg)) as [[Hs Ha] | [Hs Ha]];
          js_cases; first [discriminate | intros _; lra].
      - pose proof (Hcfg 0) as H3. revert H3.
        unfold Spec.tier, Spec.defaults; cbn [Spec.lean_from Spec.strong_from].
        change (Qabs 0) with 0.
        js_cases; first [discriminate | intros _; lra]. }
    assert (Hhi : ~ Spec.strong_from cfg < 0.20).
    { intros Hlt.
      destruct (Qlt_le_dec 0.05 (Spec.strong_from cfg)) as [Hpos | Hnonpos].
      - pose proof (Hcfg (Spec.strong_from cfg)) as H3. revert H3.
        unfold Spec.tier, Spec.defaults; cbn [Spec.lean_from Spec.strong_from].
        destruct (Qabs_sign (Spec.strong_from cfg)) as [[Hs Ha] | [Hs Ha]];
          js_cases; first [discriminate | intros _; lra].
      - revert H1.
        unfold Spec.tier, Spec.defaults; cbn [Spec.lean_from Spec.strong_from].
        change (Qabs 0.05) with 0.05.
        js_cases; first [discriminate | intros _; lra]. }
    revert H1 H2.
    unfold Spec.tier, Spec.defaults; cbn [Spec.lean_from Spec.strong_from].
    change (Qabs 0.05) with 0.05. change (Qabs 0.20) with 0.20.
    js_cases; first [discriminate | intros _ _; lra].
  - intros [Hl Hs] index. rewrite label_tier_defaults. f_equal.
    unfold Spec.tier, Spec.defaults; cbn [Spec.lean_from Spec.strong_from].
    js_cases; first [reflexivity | exfalso; lra].
Qed.

(** Both bet signals put their boundaries at 55 and 65 percent. *)
Lemma getBetSignal_boundaries (m : Match) :
  color_tier (MatchDetailPage.color (MatchDetailPage.getBetSignal m))
  = Some (percent_tier 55 65 (MatchDetailPage.radiantProb m) (MatchDetailPage.direProb m))
  /\ color_tier (FeaturedMatch.color (FeaturedMatch.getBetSignal m))
     = Some (percent_tier 55 65 (FeaturedMatch.radiantProb m) (FeaturedMatch.direProb m)).
Proof.
  unfold MatchDetailPage.getBetSignal, FeaturedMatch.getBetSignal, percent_tier.
  change (FeaturedMatch.radiantProb m) with (MatchDetailPage.radiantProb m).
  change (FeaturedMatch.direProb m) with (MatchDetailPage.direProb m).
  destruct (65 <=? MatchDetailPage.radiantProb m)%Z;
    destruct (65 <=? MatchDetailPage.direProb m)%Z;
    destruct (55 <=? MatchDetailPage.radiantProb m)%Z;
    destruct (55 <=? MatchDetailPage.direProb m)%Z; split; reflexivity.
Qed.

(** The bet signal reads win probabilities, not an index.  Against an
    even market the four indices of the specification's examples land in
    the same tiers as on the gauge, but STRONG already starts at 65
    percent: 66 to 34 is STRONG here, while its index of 0.16 is LEAN on
    the gauge. *)
Example getBetSignal_samples :
  MatchDetailPage.text (MatchDetailPage.getBetSignal
    {| radiant_win_prob := 0.53; dire_win_prob := 0.47 |}) = "CLOSE MATCH - SKIP"
  /\ MatchDetailPage.text (MatchDetailPage.getBetSignal
       {| radiant_win_prob := 0.62; dire_win_prob := 0.38 |}) = "LEAN RADIANT"
  /\ MatchDetailPage.text (MatchDetailPage.getBetSignal
       {| radiant_win_prob := 0.75; dire_win_prob := 0.25 |}) = "STRONG VALUE - RADIANT"
  /\ MatchDetailPage.text (MatchDetailPage.getBetSignal
       {| radiant_win_prob := 0.20; dire_win_prob := 0.80 |}) = "STRONG VALUE - DIRE"
  /\ MatchDetailPage.text (MatchDetailPage.getBetSignal
       {| radiant_win_prob := 0.66; dire_win_prob := 0.34 |}) = "STRONG VALUE - RADIANT"
  /\ label_tier (getLabel 0.16) = Some LEAN.
Proof. repeat split; vm_compute; reflexivity. Qed.

(** C3, amended.  The tier boundaries are literals of the components:
    the gauge tiers every index as the default thresholds 0.05 and 0.20
    do, a configuration gives the gauge's tiers only if it equals those
    two literals, and both bet signals tier the rounded win percentages
    at 55 and 65.  No threshold is a parameter of these functions. *)
Theorem tier_boundaries_are_literals (cfg : Spec.Thresholds) (index : number) (m : Match) :
  label_tier (getLabel index) = Some (Spec.tier Spec.defaults index)
  /\ ((forall i, label_tier (getLabel i) = Some (Spec.tier cfg i))
      <-> (Spec.lean_from cfg == 0.05 /\ Spec.strong_from cfg == 0.20))
  /\ color_tier (MatchDetailPage.color (MatchDetailPage.getBetSignal m))
     = Some (percent_tier 55 65 (MatchDetailPage.radiantProb m) (MatchDetailPage.direProb m))
  /\ color_tier (FeaturedMatch.color (FeaturedMatch.getBetSignal m))
     = Some (percent_tier 55 65 (FeaturedMatch.radiantProb m) (FeaturedMatch.direProb m)).
Proof.
  split; [apply label_tier_defaults |].
  split; [apply gauge_thresholds_unique |].
  apply getBetSignal_boundaries.
Qed.

End GaugeClaims.

(** ** The probability history of the app store *)

Section History.
Import AppStore.

Lemma length_last_n {A} (n : nat) (l : list A) :
  length (last_n n l) = Nat.min n (length l).
Proof. unfold last_n. rewrite length_drop. lia. Qed.

Lemma last_n_all {A} (n : nat) (l : list A) : length l <= n -> last_n n l = l.
Proof. intros H. unfold last_n. replace (length l - n) with 0 by lia. reflexivity. Qed.

(** Trimming before appending more does not change what is kept. *)
Lemma last_n_app_last_n {A} (n : nat) (l k : list A) :
  last_n n (last_n n l ++ k) = last_n n (l ++ k).
Proof.
  destruct (le_lt_dec (length l) n) as [Hle | Hgt].
  - now rewrite (last_n_all n l Hle).
  - unfold last_n at 1 3. rewrite !length_app, length_last_n.
    replace (Nat.min n (length l) + length k - n) with (length k) by lia.
    replace (length l + length k - n) with ((length l - n) + length k) by lia.
    unfold last_n. rewrite <- drop_drop.
    rewrite (drop_app_le l k (length l - n)) by lia. reflexivity.
Qed.

(** [slice(-n)] keeps the last [n] elements. *)
Lemma slice_negative {A} (n : nat) (l : list A) :
  n <> 0 -> slice (- Z.of_nat n) l = last_n n l.
Proof.
  intros Hn. unfold slice, last_n.
  destruct (Z.ltb_spec (- Z.of_nat n) 0) as [_ | Hge]; [| lia].
  f_equal. lia.
Qed.

Lemma addProbabilityPoint_history (t m k : number) (st : AppState) :
  probabilityHistory (addProbabilityPoint t m k st)
  = last_n 60 (probabilityHistory st ++ [{| time := t; model := m; market := k |}]).
Proof.
  unfold addProbabilityPoint. cbn [probabilityHistory].
  set (h := probabilityHistory st ++ _).
  unfold MAX_HISTORY_POINTS.
  destruct (Z.ltb_spec 60 (Z.of_nat (length h))) as [Hgt | Hle].
  - apply (slice_negative 60). discriminate.
  - symmetry. apply last_n_all. lia.
Qed.

Lemma addPoints_history (pts : list Point) (st : AppState) :
  length (probabilityHistory st) <= 60 ->
  probabilityHistory (addPoints pts st)
  = last_n 60 (probabilityHistory st ++ pts).
Proof.
  revert st. induction pts as [| p pts IH]; intros st Hst.
  - cbn. rewrite app_nil_r. symmetry. now apply last_n_all.
  - cbn [addPoints foldl]. fold (addPoints pts (addProbabilityPoint (time p) (model p) (market p) st)).
    rewrite IH.
    + rewrite addProbabilityPoint_history. destruct p as [t m k]; cbn [time model market].
      rewrite last_n_app_last_n, <- app_assoc. reflexivity.
    + rewrite addProbabilityPoint_history, length_last_n. lia.
Qed.

(** No call on the store lets the history grow past 60 entries. *)
Lemma dispatch_history_bound (st : AppState) (a : Action) :
  length (probabilityHistory st) <= 60 ->
  length (probabilityHistory (dispatch st a)) <= 60.
Proof.
  intros Hst. destruct a as [status | state | t m k | page]; cbn [dispatch].
  - exact Hst.
  - unfold updateGameState. destruct (game_time state).
    + rewrite addProbabilityPoint_history, length_last_n. lia.
    + exact Hst.
  - rewrite addProbabilityPoint_history, length_last_n. lia.
  - exact Hst.
Qed.

Lemma run_history_bound (actions : list Action) (st : AppState) :
  length (probabilityHistory st) <= 60 ->
  length (probabilityHistory (run actions st)) <= 60.
Proof.
  revert st. induction actions as [| a actions IH]; intros st Hst; cbn.
  - exact Hst.
  - apply IH. now apply dispatch_history_bound.
Qed.

(** C4.  The probability history is a bounded buffer with drop-oldest:
    whatever is appended, and whatever else is called on the store, it
    never holds more than 60 entries; after appending a sequence of
    points to the empty history it holds exactly the most recent 60 of
    them in arrival order; and appending to a full history drops exactly
    its oldest entry and puts the new point last. *)
Theorem probabilityHistory_drop_oldest
    (pts : list Point) (actions : list Action) (st : AppState) (t m k : number) :
  length (probabilityHistory (addPoints pts initial)) <= 60
  /\ probabilityHistory (addPoints pts initial) = drop (length pts - 60) pts
  /\ length (probabilityHistory (run actions initial)) <= 60
  /\ length (probabilityHistory (addProbabilityPoint t m k st)) <= 60
  /\ (length (probabilityHistory st) = 60 ->
      probabilityHistory (addProbabilityPoint t m k st)
      = drop 1 (probabilityHistory st) ++ [{| time := t; model := m; market := k |}]).
Proof.
  assert (Hinit : length (probabilityHistory initial) <= 60) by (cbn; lia).
  repeat split.
  - rewrite addPoints_history, length_last_n by exact Hinit. lia.
  - rewrite addPoints_history by exact Hinit. reflexivity.
  - now apply run_history_bound.
  - rewrite addProbabilityPoint_history, length_last_n. lia.
  - intros Hfull. rewrite addProbabilityPoint_history. unfold last_n.
    rewrite length_app, Hfull. cbn [length Nat.add].
    change (60 + 1 - 60) with 1.
    apply drop_app_le. lia.
Qed.

(** The theorem on a full history of 60 points numbered 1 to 60: point 61
    pushes point 1 out. *)
Lemma probabilityHistory_drop_oldest_witness :
  let numbered := fun n : nat => {| time := inject_Z (Z.of_nat n); model := 0.5%Q; market := 0.5%Q |} in
  let full := addPoints (numbered <$> seq 1 60) initial in
  length (probabilityHistory full) = 60
  /\ probabilityHistory (addProbabilityPoint (inject_Z 61) 0.5%Q 0.5%Q full)
     = (numbered <$> seq 2 59) ++ [numbered 61].
Proof.
  intros numbered full.
  assert (Hfull : length (probabilityHistory full) = 60) by (vm_compute; reflexivity).
  split; [exact Hfull |].
  destruct (probabilityHistory_drop_oldest [] [] full (inject_Z 61) 0.5%Q 0.5%Q)
    as (_ & _ & _ & _ & Hdrop).
  rewrite (Hdrop Hfull). vm_compute. reflexivity.
Defined.

End History.

(** ** The message handlers *)

Section MessageHandlers.
Import Js.
Variable JSON_parse : string -> option jsval.

Lemma strict_eq_string_true (v : jsval) (s : string) :
  strict_eq_string v s = true <-> v = JString s.
Proof.
  destruct v; cbn; try (split; [discriminate | congruence]).
  rewrite String.eqb_eq. split; congruence.
Qed.

(** What the hook's handler does, by the shape of the message. *)
Lemma hook_onmessage_unfold (now : Z) (event_data : string) (w : WebSocketHook.Tab) :
  WebSocketHook.onmessage JSON_parse now event_data w =
  match JSON_parse event_data with
  | None =>
      (Normal tt,
       {| WebSocketHook.store := WebSocketHook.store w;
          WebSocketHook.console := WebSocketHook.console w ++
            [console_error "Error parsing WS message:" (Some SyntaxError)] |})
  | Some data =>
      match get data f_type with
      | Throw e =>
          (Normal tt,
           {| WebSocketHook.store := WebSocketHook.store w;
              WebSocketHook.console := WebSocketHook.console w ++
                [console_error "Error parsing WS message:" (Some e)] |})
      | Normal type =>
          if strict_eq_string type "update" then
            (Normal tt,
             {| WebSocketHook.store :=
                  {| GameStore.winProbability := optional_get data f_win_probability;
                     GameStore.gameTime := optional_get data f_timestamp;
                     GameStore.isConnected := GameStore.isConnected (WebSocketHook.store w);
                     GameStore.lastUpdate := now |};
                WebSocketHook.console := WebSocketHook.console w |})
          else (Normal tt, w)
      end
  end.
Proof.
  unfold WebSocketHook.onmessage, try_catch, bind, JSON_parse_with.
  destruct (JSON_parse event_data) as [data |]; [| reflexivity].
  destruct data; cbn; try reflexivity.
  destruct (strict_eq_string _ "update"); reflexivity.
Qed.

(** The same for the spectate page's handler. *)
Lemma spectate_onmessage_unfold (event_data : string) (s : SpectatePage.State) :
  SpectatePage.onmessage JSON_parse event_data s =
  match JSON_parse event_data with
  | None =>
      (Normal tt,
       {| SpectatePage.app := SpectatePage.app s;
          SpectatePage.prediction := SpectatePage.prediction s;
          SpectatePage.console := SpectatePage.console s ++
            [console_error "Error parsing WebSocket message:" (Some SyntaxError)] |})
  | Some data =>
      let logged := SpectatePage.console s ++ [console_log "Received prediction:" [data]] in
      match get data f_type with
      | Throw e =>
          (Normal tt,
           {| SpectatePage.app := SpectatePage.app s;
              SpectatePage.prediction := SpectatePage.prediction s;
              SpectatePage.console :=
                logged ++ [console_error "Error parsing WebSocket message:" (Some e)] |})
      | Normal type =>
          (Normal tt,
           {| SpectatePage.app := SpectatePage.app s;
              SpectatePage.prediction :=
                if strict_eq_string type "update"
                   && is_defined (optional_get data f_model_win_probability)
                then data else SpectatePage.prediction s;
              SpectatePage.console := logged |})
      end
  end.
Proof.
  unfold SpectatePage.onmessage, try_catch, bind, JSON_parse_with.
  destruct (JSON_parse event_data) as [data |]; [| reflexivity].
  destruct data; cbn; try reflexivity.
  destruct (strict_eq_string _ "update"); cbn; [| reflexivity].
  destruct (is_defined _); reflexivity.
Qed.

(** C5.  Whatever text arrives, valid JSON or not, neither message
    handler lets an exception escape; and when the text does not parse,
    the game store, the dashboard's stale flag, the app store and the
    displayed prediction are all left as they were (the failure is only
    written to the console). *)
Theorem onmessage_never_throws
    (now : Z) (event_data : string)
    (w : WebSocketHook.Tab) (d : Dashboard.State) (s : SpectatePage.State) :
  fst (WebSocketHook.onmessage JSON_parse now event_data w) = Normal tt
  /\ fst (SpectatePage.onmessage JSON_parse event_data s) = Normal tt
  /\ (JSON_parse event_data = None ->
      WebSocketHook.store (snd (WebSocketHook.onmessage JSON_parse now event_data w))
      = WebSocketHook.store w
      /\ Dashboard.store (Dashboard.step JSON_parse d (Dashboard.SocketMessage now event_data))
         = Dashboard.store d
      /\ Dashboard.isDead (Dashboard.step JSON_parse d (Dashboard.SocketMessage now event_data))
         = Dashboard.isDead d
      /\ SpectatePage.app (snd (SpectatePage.onmessage JSON_parse event_data s))
         = SpectatePage.app s
      /\ SpectatePage.prediction (snd (SpectatePage.onmessage JSON_parse event_data s))
         = SpectatePage.prediction s).
Proof.
  unfold Dashboard.store, Dashboard.step, Dashboard.handler. cbn [Dashboard.tab Dashboard.isDead].
  rewrite !hook_onmessage_unfold, spectate_onmessage_unfold.
  destruct (JSON_parse event_data) as [data |].
  - repeat split; try discriminate.
    + destruct (get data f_type) as [type | e]; [| reflexivity].
      destruct (strict_eq_string type "update"); reflexivity.
    + cbv zeta. destruct (get data f_type); reflexivity.
  - repeat split; reflexivity.
Qed.

(** C8.  A message that parses but whose [type] is not the string
    [update] leaves every field of the game store as it was; on the
    spectate page the same holds for the app store and the displayed
    prediction, also when the type is [update] but the message has no
    [model_win_probability]. *)
Theorem only_update_messages_mutate
    (now : Z) (event_data : string) (data : jsval)
    (w : WebSocketHook.Tab) (s : SpectatePage.State) :
  JSON_parse event_data = Some data ->
  (get data f_type <> Normal (JString "update") ->
   WebSocketHook.store (snd (WebSocketHook.onmessage JSON_parse now event_data w))
   = WebSocketHook.store w)
  /\ (get data f_type <> Normal (JString "update")
      \/ optional_get data f_model_win_probability = JUndefined ->
      SpectatePage.app (snd (SpectatePage.onmessage JSON_parse event_data s))
      = SpectatePage.app s
      /\ SpectatePage.prediction (snd (SpectatePage.onmessage JSON_parse event_data s))
         = SpectatePage.prediction s).
Proof.
  intros Hparse.
  rewrite hook_onmessage_unfold, spectate_onmessage_unfold, Hparse. cbv zeta.
  destruct (get data f_type) as [type | e]; cbn [fst snd].
  - destruct (strict_eq_string type "update") eqn:Heq.
    + apply strict_eq_string_true in Heq. subst type. split.
      * intros Hne. now contradiction Hne.
      * intros [Hne | Habsent]; [now contradiction Hne |].
        rewrite Habsent. cbn. split; reflexivity.
    + split; [reflexivity |]. intros _. cbn. split; reflexivity.
  - split; [reflexivity |]. intros _. cbn. split; reflexivity.
Qed.

End MessageHandlers.

(** ** The dashboard: deadman switch and defaults *)

Section DashboardClaims.
Import Js.
Variable JSON_parse : string -> option jsval.

(** A step that is not an update keeps the snapshot in the store: the win
    probability, the game time and the time of the last update. *)
Lemma step_keeps_snapshot (d : Dashboard.State) (ev : Dashboard.Event) :
  Dashboard.is_update JSON_parse ev = false ->
  GameStore.winProbability (Dashboard.store (Dashboard.step JSON_parse d ev))
  = GameStore.winProbability (Dashboard.store d)
  /\ GameStore.gameTime (Dashboard.store (Dashboard.step JSON_parse d ev))
     = GameStore.gameTime (Dashboard.store d)
  /\ GameStore.lastUpdate (Dashboard.store (Dashboard.step JSON_parse d ev))
     = GameStore.lastUpdate (Dashboard.store d).
Proof.
  intros Hquiet. destruct ev as [| now event_data | | | now];
    unfold Dashboard.store, Dashboard.step, Dashboard.handler;
    cbn [Dashboard.tab Dashboard.interval_tick]; try (repeat split; reflexivity).
  rewrite hook_onmessage_unfold. cbn [Dashboard.is_update] in Hquiet.
  destruct (JSON_parse event_data) as [data |]; [| repeat split; reflexivity].
  destruct (get data f_type) as [type | e]; [| repeat split; reflexivity].
  rewrite Hquiet. repeat split; reflexivity.
Qed.

Lemma run_keeps_snapshot (events : list Dashboard.Event) (d : Dashboard.State) :
  forallb (fun ev => negb (Dashboard.is_update JSON_parse ev)) events = true ->
  GameStore.winProbability (Dashboard.store (Dashboard.run JSON_parse events d))
  = GameStore.winProbability (Dashboard.store d)
  /\ GameStore.gameTime (Dashboard.store (Dashboard.run JSON_parse events d))
     = GameStore.gameTime (Dashboard.store d)
  /\ GameStore.lastUpdate (Dashboard.store (Dashboard.run JSON_parse events d))
     = GameStore.lastUpdate (Dashboard.store d).
Proof.
  revert d. induction events as [| ev events IH]; intros d Hquiet.
  - repeat split; reflexivity.
  - cbn [forallb] in Hquiet. apply andb_true_iff in Hquiet as [Hev Hrest].
    apply negb_true_iff in Hev.
    cbn [Dashboard.run foldl]. fold (Dashboard.run JSON_parse events (Dashboard.step JSON_parse d ev)).
    destruct (IH (Dashboard.step JSON_parse d ev) Hrest) as (Hp & Ht & Hl).
    destruct (step_keeps_snapshot d ev Hev) as (Hp' & Ht' & Hl').
    repeat split; congruence.
Qed.

(** C9, amended.  The store is created at its defaults (win probability
    0.5, game time 0, disconnected) and [reset] returns it to them from
    any state; until the first update is processed the win probability
    and the game time stay at 0.5 and 0, which the dashboard prints as
    50.0 and 50.0 percent, and the spectate page's probability for a missing
    prediction is 0.5 as well.  The connection flag is not part of what
    stays put: it follows the socket. *)
Theorem game_store_defaults
    (now : Z) (st : GameStore.State) (events : list Dashboard.Event) :
  GameStore.at_defaults (GameStore.initial now)
  /\ GameStore.at_defaults (GameStore.reset st)
  /\ (forallb (fun ev => negb (Dashboard.is_update JSON_parse ev)) events = true ->
      GameStore.winProbability
        (Dashboard.store (Dashboard.run JSON_parse events (Dashboard.initial now)))
      = JNum 0.5%Q
      /\ GameStore.gameTime
           (Dashboard.store (Dashboard.run JSON_parse events (Dashboard.initial now)))
         = JNum 0%Q)
  /\ (NumberFormat.value (Dashboard.radiantWin 0.5) == 50
      /\ NumberFormat.value (Dashboard.direWin 0.5) == 50)%Q
  /\ (NumberFormat.text (Dashboard.radiantWin 0.5%Q) = Some "50.0"
      /\ NumberFormat.text (Dashboard.direWin 0.5%Q) = Some "50.0")
  /\ SpectatePage.radiantProb JNull = JNum 0.5%Q
  /\ (SpectatePage.direProb 0.5 == 0.5)%Q.
Proof.
  split; [repeat split |].
  split; [repeat split |].
  split.
  - intros Hquiet.
    destruct (run_keeps_snapshot events (Dashboard.initial now) Hquiet) as (Hp & Ht & _).
    split; assumption.
  - repeat split; vm_compute; reflexivity.
Qed.

End DashboardClaims.

(** C9 as stated fails: once the socket has opened, and before any
    message at all has been processed, the store says connected. *)
Lemma connected_before_first_update :
  let events := [Dashboard.SocketOpen] in
  let d := Dashboard.run (fun _ => None) events (Dashboard.initial 0) in
  forallb (fun ev => negb (Dashboard.is_update (fun _ => None) ev)) events = true
  /\ GameStore.isConnected (Dashboard.store d) <> false.
Proof. split; [reflexivity | discriminate]. Qed.

(** ** Complementary probabilities *)

Section Complement.
Import Js NumberFormat.
Local Open Scope Q_scope.

(** A percentage goes through [toFixed(1)] as a plain figure without a
    sign, whose tenths are the integer nearest to ten times the value,
    the upper one at a tie. *)
Lemma toFixed1_percentage (x : number) :
  0 <= x <= 100 ->
  exists n : Z,
    toFixed1 x = Tenths false n
    /\ inject_Z n <= x * 10 + (1 # 2) < inject_Z n + 1
    /\ (0 <= n <= 1000)%Z.
Proof.
  intros [Hlo Hhi]. unfold toFixed1.
  assert (Hsign : Math.ltb x 0 = false) by (apply ltb_false; exact Hlo).
  rewrite Hsign. cbv zeta.
  assert (Hsmall : Math.geb x 1000000000000000000000 = false).
  { unfold Math.geb. destruct (Qle_bool 1000000000000000000000 x) eqn:E; [| reflexivity].
    apply Qle_bool_iff in E. lra. }
  rewrite Hsmall.
  exists (Qfloor (x * 10 + (1 # 2))).
  pose proof (Qfloor_le (x * 10 + (1 # 2))) as Hfloor.
  pose proof (Qlt_floor (x * 10 + (1 # 2))) as Hnext.
  rewrite inject_Z_plus in Hnext. change (inject_Z 1) with 1 in Hnext.
  split; [reflexivity |]. split; [split; assumption |].
  set (n := Qfloor (x * 10 + (1 # 2))) in *.
  assert (Hpos : inject_Z (-1) < inject_Z n) by (change (inject_Z (-1)) with (-1); lra).
  assert (Htop : inject_Z n < inject_Z 1001) by (change (inject_Z 1001) with 1001; lra).
  rewrite <- Zlt_Qlt in Hpos, Htop. lia.
Qed.

(** Two percentages that add up to 100, each through [toFixed(1)] on its
    own: the figures add up to 100 within one tenth, and each lies less
    than a tenth from its percentage. *)
Lemma complementary_figures (x y : number) :
  0 <= x <= 100 -> x + y == 100 ->
  exists r d : Z,
    toFixed1 x = Tenths false r /\ toFixed1 y = Tenths false d
    /\ (0 <= r <= 1000)%Z /\ (0 <= d <= 1000)%Z
    /\ (999 <= r + d <= 1001)%Z
    /\ x * 10 - 1 < inject_Z r < x * 10 + 1
    /\ y * 10 - 1 < inject_Z d < y * 10 + 1.
Proof.
  intros Hx Hsum.
  assert (Hy : 0 <= y <= 100) by lra.
  destruct (toFixed1_percentage x Hx) as (r & Er & [Hr1 Hr2] & Hr).
  destruct (toFixed1_percentage y Hy) as (d & Ed & [Hd1 Hd2] & Hd).
  exists r, d. repeat split; try assumption; try lia; try lra.
  - assert (H : inject_Z 998 < inject_Z (r + d)).
    { rewrite inject_Z_plus. change (inject_Z 998) with 998. lra. }
    rewrite <- Zlt_Qlt in H. lia.
  - assert (H : inject_Z (r + d) < inject_Z 1002).
    { rewrite inject_Z_plus. change (inject_Z 1002) with 1002. lra. }
    rewrite <- Zlt_Qlt in H. lia.
Qed.

(** C10, amended.  For a received prediction whose model win probability
    is a number p between 0 and 1, the spectate page computes Dire's
    value as 1 - p and the dashboard as 100 - 100 p; each page then puts
    each value through [toFixed(1)] on its own.  The four figures are
    plain one-decimal figures from 0.0 to 100.0, each less than 0.1 from
    its percentage, and on each page the two figures add up to 99.9,
    100.0 or 100.1. *)
Theorem dire_is_complement (prediction : jsval) (p : number) :
  optional_get prediction f_model_win_probability = JNum p ->
  0 <= p <= 1 ->
  SpectatePage.radiantProb prediction = JNum p
  /\ SpectatePage.direProb p == 1 - p
  /\ (exists r d : Z,
        SpectatePage.radiantPercent p = Tenths false r
        /\ SpectatePage.direPercent (SpectatePage.direProb p) = Tenths false d
        /\ (0 <= r <= 1000)%Z /\ (0 <= d <= 1000)%Z
        /\ (999 <= r + d <= 1001)%Z
        /\ p * 1000 - 1 < inject_Z r < p * 1000 + 1
        /\ (1 - p) * 1000 - 1 < inject_Z d < (1 - p) * 1000 + 1)
  /\ (exists r d : Z,
        Dashboard.radiantWin p = Tenths false r
        /\ Dashboard.direWin p = Tenths false d
        /\ (0 <= r <= 1000)%Z /\ (0 <= d <= 1000)%Z
        /\ (999 <= r + d <= 1001)%Z
        /\ p * 1000 - 1 < inject_Z r < p * 1000 + 1
        /\ (1 - p) * 1000 - 1 < inject_Z d < (1 - p) * 1000 + 1).
Proof.
  intros Hfield Hp.
  split; [unfold SpectatePage.radiantProb; rewrite Hfield; reflexivity |].
  split; [reflexivity |].
  split.
  - unfold SpectatePage.radiantPercent, SpectatePage.direPercent, SpectatePage.direProb.
    destruct (complementary_figures (p * 100) ((1 - p) * 100))
      as (r & d & Er & Ed & Hr & Hd & Hsum & Hnear_r & Hnear_d); [lra | ring |].
    exists r, d. repeat split; try assumption; try lia; lra.
  - unfold Dashboard.radiantWin, Dashboard.direWin.
    destruct (complementary_figures (p * 100) (100 - p * 100))
      as (r & d & Er & Ed & Hr & Hd & Hsum & Hnear_r & Hnear_d); [lra | ring |].
    exists r, d. repeat split; try assumption; try lia; lra.
Qed.

(** C10 as stated fails.  At p = 0.0625 the percentages are 6.25 and
    93.75, in double arithmetic as well; both round up, and both pages
    print 6.3% and 93.8%: not p and 1 - p, and 100.1 together. *)
Lemma displayed_figures_not_complementary :
  let p : number := 0.0625 in
  text (Dashboard.radiantWin p) = Some "6.3"
  /\ text (Dashboard.direWin p) = Some "93.8"
  /\ text (SpectatePage.radiantPercent p) = Some "6.3"
  /\ text (SpectatePage.direPercent (SpectatePage.direProb p)) = Some "93.8"
  /\ ~ value (Dashboard.radiantWin p) == p * 100
  /\ ~ value (Dashboard.direWin p) == (1 - p) * 100
  /\ ~ value (Dashboard.radiantWin p) + value (Dashboard.direWin p) == 100
  /\ ~ value (SpectatePage.radiantPercent p)
        + value (SpectatePage.direPercent (SpectatePage.direProb p)) == 100.
Proof.
  repeat split; try (vm_compute; reflexivity); vm_compute; discriminate.
Qed.

End Complement.

(** ** The theorems on sample traffic *)

Section SampleRuns.
Import Js Samples.

(** A frame that is not JSON: nothing escapes, the store is untouched. *)
Lemma onmessage_never_throws_witness :
  let w := {| WebSocketHook.store := GameStore.initial 0; WebSocketHook.console := [] |} in
  fst (WebSocketHook.onmessage sample_JSON_parse 40 "<html>" w) = Normal tt
  /\ WebSocketHook.store (snd (WebSocketHook.onmessage sample_JSON_parse 40 "<html>" w))
     = GameStore.initial 0.
Proof.
  intros w.
  destruct (onmessage_never_throws sample_JSON_parse 40 "<html>" w
              (Dashboard.initial 0) SpectatePage.initial)
    as (Hnormal & _ & Hkept).
  split; [exact Hnormal |].
  apply Hkept. reflexivity.
Defined.

(** A heartbeat parses and is not an update: both clients keep their
    state. *)
Lemma only_update_messages_mutate_witness :
  let w := {| WebSocketHook.store := GameStore.initial 0; WebSocketHook.console := [] |} in
  WebSocketHook.store (snd (WebSocketHook.onmessage sample_JSON_parse 40 heartbeat_frame w))
  = GameStore.initial 0
  /\ SpectatePage.prediction
       (snd (SpectatePage.onmessage sample_JSON_parse heartbeat_frame SpectatePage.initial))
     = JNull.
Proof.
  intros w.
  assert (Hparse : sample_JSON_parse heartbeat_frame = Some heartbeat)
    by (vm_compute; reflexivity).
  assert (Htype : get heartbeat f_type <> Normal (JString "update"))
    by (vm_compute; discriminate).
  destruct (only_update_messages_mutate sample_JSON_parse 40 heartbeat_frame heartbeat
              w SpectatePage.initial Hparse) as (Hhook & Hpage).
  split.
  - exact (Hhook Htype).
  - exact (proj2 (Hpage (or_introl Htype))).
Defined.

(** C6, on the code.  The dashboard has shown 0.7 at 120 s when the
    frame [{"type":"update","model_win_probability":0.62}] arrives, an
    update that carries neither [win_probability] nor [timestamp].  The
    hook stores [undefined] for both.  At a tick 2000 ms later the page
    shows [undefined] in place of the two values with no NO DATA badge,
    and at a tick one millisecond after that, when nothing has arrived
    for over 2000 ms, it shows them under LIVE and NO DATA: the values
    of the last good update are gone.
    The handler of the spectate page, given a frame without the field it
    reads, keeps what it had. *)
Theorem last_good_snapshot_lost :
  let good :=
    Dashboard.run sample_JSON_parse
      [Dashboard.SocketOpen; Dashboard.SocketMessage 100 update_frame]
      (Dashboard.initial 0) in
  let d := Dashboard.step sample_JSON_parse good (Dashboard.SocketMessage 1500 prediction_frame) in
  let page :=
    {| SpectatePage.app := AppStore.initial;
       SpectatePage.prediction := prediction;
       SpectatePage.console := [] |} in
  Dashboard.view good
  = {| Dashboard.connectionBadge := "LIVE";
       Dashboard.noDataBadge := false;
       Dashboard.shownWinProbability := JNum 0.7%Q;
       Dashboard.shownGameTime := JNum 120%Q |}
  /\ Dashboard.view (Dashboard.interval_tick 3500 d)
     = {| Dashboard.connectionBadge := "LIVE";
          Dashboard.noDataBadge := false;
          Dashboard.shownWinProbability := JUndefined;
          Dashboard.shownGameTime := JUndefined |}
  /\ Dashboard.view (Dashboard.interval_tick 3501 d)
     = {| Dashboard.connectionBadge := "LIVE";
          Dashboard.noDataBadge := true;
          Dashboard.shownWinProbability := JUndefined;
          Dashboard.shownGameTime := JUndefined |}
  /\ SpectatePage.prediction (snd (SpectatePage.onmessage sample_JSON_parse update_frame page))
     = prediction.
Proof. repeat split; vm_compute; reflexivity. Qed.

(** An update frame is processed: the store takes its two fields and the
    time of arrival, the spectate page takes the whole prediction. *)
Example update_frames_are_processed :
  WebSocketHook.store
    (snd (WebSocketHook.onmessage sample_JSON_parse 40 update_frame
            {| WebSocketHook.store := GameStore.initial 0; WebSocketHook.console := [] |}))
  = {| GameStore.winProbability := JNum 0.7%Q;
       GameStore.gameTime := JNum 120%Q;
       GameStore.isConnected := false;
       GameStore.lastUpdate := 40 |}
  /\ SpectatePage.prediction
       (snd (SpectatePage.onmessage sample_JSON_parse prediction_frame SpectatePage.initial))
     = prediction.
Proof. split; vm_compute; reflexivity. Qed.

(** The sample prediction: 0.62 for Radiant, 0.38 for Dire, printed as
    62.0 and 38.0. *)
Lemma dire_is_complement_witness :
  SpectatePage.radiantProb prediction = JNum 0.62%Q
  /\ (SpectatePage.direProb 0.62 == 0.38)%Q
  /\ exists r d : Z,
       Dashboard.radiantWin 0.62%Q = NumberFormat.Tenths false r
       /\ Dashboard.direWin 0.62%Q = NumberFormat.Tenths false d
       /\ (999 <= r + d <= 1001)%Z.
Proof.
  assert (Hfield : optional_get prediction f_model_win_probability = JNum 0.62%Q)
    by (vm_compute; reflexivity).
  assert (Hp : (0 <= 0.62 <= 1)%Q) by (split; vm_compute; discriminate).
  destruct (dire_is_complement prediction 0.62%Q Hfield Hp)
    as (Hr & Hd & _ & (r & d & Er & Ed & _ & _ & Hsum & _)).
  split; [exact Hr |].
  split; [rewrite Hd; reflexivity |].
  exists r, d. split; [exact Er |]. split; [exact Ed | exact Hsum].
Defined.

End SampleRuns.

(** * Further properties *)

(** ** Colours and marks *)

Section Colours.
Local Open Scope Q_scope.

(** The dashboard colours Radiant by [getWinColor p] and Dire by
    [getWinColor (1 - p)]: one side is shown as winning exactly when the
    other is shown as losing, and both are shown as even exactly when p
    lies in [0.4, 0.6]. *)
Theorem getWinColor_mirror (p : number) :
  (Dashboard.getWinColor p = "text-success"
   <-> Dashboard.getWinColor (1 - p) = "text-error")
  /\ (Dashboard.getWinColor p = "text-error"
      <-> Dashboard.getWinColor (1 - p) = "text-success")
  /\ (Dashboard.getWinColor p = "text-warning"
      <-> Dashboard.getWinColor (1 - p) = "text-warning")
  /\ (Dashboard.getWinColor p = "text-warning" <-> 0.4 <= p <= 0.6).
Proof.
  unfold Dashboard.getWinColor.
  js_cases; repeat split; intros; try reflexivity; try discriminate; try lra;
    try (exfalso; lra).
Qed.

End Colours.

Section GaugeMarks.
Import MispricingGauge.
Local Open Scope Q_scope.

(** The marks of the gauge agree with its label.  The glow is drawn
    exactly from |index| >= 0.1, so never on a SKIP label and always on a
    STRONG one; the figure is greyed only on a SKIP label; the bar is as
    wide as 50 times the clamped magnitude and points right exactly for a
    non-negative index, which is the side the label favours. *)
Theorem gauge_marks_agree (index : number) (labels : bool) :
  let r := render {| mispricing := index; showLabels := labels |} in
  (glow r = true <-> 0.1 <= Qabs index)
  /\ (label_tier (getLabel index) = Some STRONG -> glow r = true)
  /\ (glow r = true -> label_tier (getLabel index) <> Some SKIP)
  /\ (muted r = true -> label_tier (getLabel index) = Some SKIP)
  /\ fillWidth r == 50 * Qabs (clampedValue index)
  /\ (fillRight r = true <-> 0 <= index)
  /\ (label_side (getLabel index) = Some Radiant -> fillRight r = true)
  /\ (label_side (getLabel index) = Some Dire -> fillRight r = false).
Proof.
  cbv zeta. unfold render.
  cbn [glow muted fillWidth fillRight MispricingGauge.mispricing].
  unfold getLabel, percentage, isPositive, isSignificant, isHighlySignificant.
  destruct (clampedValue_cases index) as [[H E] | [[H E] | [H E]]]; rewrite !E;
    destruct (Qabs_sign index) as [[Hs Ha] | [Hs Ha]];
    destruct (Qabs_sign (clampedValue index)) as [[Hc Hb] | [Hc Hb]];
    rewrite ?E in Hc, Hb; try rewrite Hb;
    js_cases; repeat split; intros; try reflexivity; try discriminate; try lra;
    try (exfalso; lra).
Qed.

End GaugeMarks.

(** ** The probability ring *)

Section Ring.
Import ProbabilityRing.
Local Open Scope Q_scope.

Lemma progress_range (props : ProbabilityRingProps) : 0 <= progress props <= 1.
Proof. unfold progress. js_cases; lra. Qed.

Lemma circumference_nonneg (props : ProbabilityRingProps) :
  strokeWidth props <= size props -> 0 <= circumference props.
Proof.
  intros Hfit. unfold circumference, radius, MathExt.PI.
  assert (Hr : 0 <= (size props - strokeWidth props) / 2).
  { apply Qle_shift_div_l; lra. }
  set (r := (size props - strokeWidth props) / 2) in *.
  apply Qmult_le_0_compat; [vm_compute; discriminate | exact Hr].
Qed.

(** When the stroke fits in the ring, the dash offset stays between 0 and
    the circumference, whatever probability is passed: it is the share
    of the circle left empty, the whole circle for a probability of 0 or
    less and nothing for a probability of 1 or more. *)
Theorem ring_offset_in_range (props : ProbabilityRingProps) :
  strokeWidth props <= size props ->
  0 <= offset props <= circumference props
  /\ offset props == circumference props * (1 - progress props)
  /\ (probability props <= 0 -> offset props == circumference props)
  /\ (1 <= probability props -> offset props == 0).
Proof.
  intros Hfit.
  pose proof (circumference_nonneg props Hfit) as Hc.
  pose proof (progress_range props) as [Hlo Hhi].
  assert (Heq : offset props == circumference props * (1 - progress props))
    by (unfold offset; ring).
  split; [| split; [exact Heq | split]].
  - rewrite Heq. split.
    + apply Qmult_le_0_compat; lra.
    + assert (Hprod : 0 <= circumference props * progress props)
        by (apply Qmult_le_0_compat; lra).
      lra.
  - intros Hp. rewrite Heq.
    assert (Hz : progress props == 0) by (unfold progress; js_cases; lra).
    rewrite Hz. ring.
  - intros Hp. rewrite Heq.
    assert (Hz : progress props == 1) by (unfold progress; js_cases; lra).
    rewrite Hz. ring.
Qed.

(** The default ring (size 200, stroke 12) at a probability above 1. *)
Lemma ring_offset_in_range_witness : offset (withDefaults 1.3) == 0.
Proof.
  destruct (ring_offset_in_range (withDefaults 1.3)) as (_ & _ & _ & Hfull).
  - vm_compute. discriminate.
  - apply Hfull. vm_compute. discriminate.
Defined.

(** A ring in Dire's colours at 1 - p is coloured as a ring in Radiant's
    colours at p. *)
Theorem ring_colors_mirror (p size strokeWidth : number) (label : string) :
  getColor {| probability := 1 - p; label := label; size := size;
              strokeWidth := strokeWidth; teamColor := dire |}
  = getColor {| probability := p; label := label; size := size;
                strokeWidth := strokeWidth; teamColor := radiant |}.
Proof.
  unfold getColor. cbn [teamColor probability].
  js_cases; first [reflexivity | exfalso; lra].
Qed.

End Ring.

(** ** Trends and clocks of the dashboard card *)

Section CardStats.
Local Open Scope Q_scope.

(** The velocity card has a dead band of 10 either way: it draws an
    arrow exactly when |velocity| > 10, green and up for a positive
    velocity, rose and down for a negative one.  The gold card draws one
    whenever the gold difference is not zero. *)
Theorem velocity_arrow_dead_band (velocity gold_diff : number) :
  let trend := DashboardCard.getVelocityTrend velocity in
  (StatCard.getTrendIcon trend <> None <-> 10 < Qabs velocity)
  /\ (StatCard.getTrendColor trend = "text-emerald-400" <-> 10 < velocity)
  /\ (StatCard.getTrendColor trend = "text-rose-400" <-> velocity < -10)
  /\ (StatCard.getTrendIcon (DashboardCard.goldTrend gold_diff) <> None
      <-> ~ gold_diff == 0).
Proof.
  cbv zeta. unfold DashboardCard.getVelocityTrend, DashboardCard.goldTrend.
  destruct (Qabs_sign velocity) as [[Hs Ha] | [Hs Ha]];
    js_cases; cbn [StatCard.getTrendIcon StatCard.getTrendColor];
    repeat split; intros; try discriminate; try reflexivity; try congruence;
    try lra; try (exfalso; lra).
Qed.

(** Whole minutes and the seconds left over, for a time that is not
    negative. *)
Lemma floor_rem_60 (x : number) :
  0 <= x ->
  MathExt.rem x 60 == x - 60 * inject_Z (Qfloor (x / 60))
  /\ 0 <= MathExt.rem x 60 < 60
  /\ (0 <= Qfloor (x / 60))%Z.
Proof.
  intros Hx.
  assert (Hq : 0 <= x / 60) by (apply Qle_shift_div_l; lra).
  assert (Hrem : MathExt.rem x 60 == x - 60 * inject_Z (Qfloor (x / 60))).
  { unfold MathExt.rem, MathExt.trunc.
    destruct (Math.leb 0 (x / 60)) eqn:E; [reflexivity |].
    apply leb_false in E. lra. }
  pose proof (Qfloor_le (x / 60)) as Hlo.
  pose proof (Qlt_floor (x / 60)) as Hhi.
  rewrite inject_Z_plus in Hhi. change (inject_Z 1) with 1 in Hhi.
  assert (Hx60 : 60 * (x / 60) == x) by (apply Qmult_div_r; discriminate).
  split; [exact Hrem | split].
  - rewrite Hrem. split; lra.
  - change 0%Z with (Qfloor 0). apply Qfloor_resp_le. exact Hq.
Qed.

(** Both clocks split the magnitude of the time into whole minutes and
    seconds below 60 that add up to it again.  The dashboard card marks a
    negative time with a minus sign; the spectate page does not, so it
    prints a time before the horn like the same time after it. *)
Theorem formatTime_recombines (seconds : number) :
  let c := SpectateClock.formatTime seconds in
  let d := DashboardCard.formatTime seconds in
  inject_Z (SpectateClock.mins c) * 60 + SpectateClock.secs c == Qabs seconds
  /\ 0 <= SpectateClock.secs c < 60
  /\ (0 <= SpectateClock.mins c)%Z
  /\ DashboardCard.mins d = SpectateClock.mins c
  /\ DashboardCard.secs d = SpectateClock.secs c
  /\ (DashboardCard.negative d = true <-> seconds < 0)
  /\ SpectateClock.mins (SpectateClock.formatTime (- seconds)) = SpectateClock.mins c
  /\ SpectateClock.secs (SpectateClock.formatTime (- seconds)) == SpectateClock.secs c.
Proof.
  cbv zeta. unfold SpectateClock.formatTime, DashboardCard.formatTime, MathExt.floor.
  cbn [SpectateClock.mins SpectateClock.secs DashboardCard.mins DashboardCard.secs
       DashboardCard.negative].
  assert (Habs : forall x, Math.abs x == Qabs x).
  { intros x. unfold Math.abs. destruct (Math.leb 0 x) eqn:E.
    - apply leb_true in E. symmetry. now apply Qabs_pos.
    - apply leb_false in E. symmetry. apply Qabs_neg. lra. }
  assert (Hpos : forall x, 0 <= Math.abs x) by (intros x; rewrite Habs; apply Qabs_nonneg).
  assert (Hopp : Math.abs (- seconds) == Math.abs seconds)
    by (rewrite !Habs; apply Qabs_opp).
  destruct (floor_rem_60 (Math.abs seconds) (Hpos seconds)) as (Hrem & Hrange & Hmins).
  destruct (floor_rem_60 (Math.abs (- seconds)) (Hpos (- seconds))) as (Hrem' & _ & _).
  repeat split; try reflexivity; try tauto.
  - rewrite Hrem, <- Habs. ring.
  - apply ltb_true.
  - apply ltb_true.
  - apply Qfloor_comp. apply Qdiv_comp; [exact Hopp | reflexivity].
  - rewrite Hrem, Hrem'.
    rewrite (Qfloor_comp (Math.abs (- seconds) / 60) (Math.abs seconds / 60))
      by (apply Qdiv_comp; [exact Hopp | reflexivity]).
    apply Qplus_comp; [exact Hopp | reflexivity].
Qed.

End CardStats.

(** ** The bet signal across the three cards *)

Section BetSignals.
Local Open Scope Z_scope.

(** The match card, the featured card and the detail page always put a
    match in the same tier: the three colours are equal, the featured
    card's emoji (chosen from the colour) is the icon of the other two,
    and the detail page calls a signal safe exactly when it is emerald.
    The text each of them prints is fixed by the two rounded
    percentages r and d, Radiant first within a tier: the Radiant value
    text from r >= 65 whatever d is, the Dire value text for r < 65 <= d,
    the Radiant lean for 55 <= r < 65 and d < 65, the Dire lean for r < 55
    <= d < 65, the skip text when both are below 55.  The match card
    prints LEAN for both leans; the featured card's side field goes with
    its text. *)
Theorem bet_signals_agree (m : Match) :
  let r := FeaturedMatch.radiantProb m in
  let d := FeaturedMatch.direProb m in
  let card := MatchCard.getBetSignal m in
  let featured := FeaturedMatch.getBetSignal m in
  let detail := MatchDetailPage.getBetSignal m in
  MatchCard.color card = FeaturedMatch.color featured
  /\ MatchDetailPage.color detail = FeaturedMatch.color featured
  /\ MatchCard.icon card = SignalBox.featuredIcon (FeaturedMatch.color featured)
  /\ MatchDetailPage.icon detail = SignalBox.featuredIcon (FeaturedMatch.color featured)
  /\ (MatchDetailPage.safe detail = true <-> FeaturedMatch.color featured = "emerald")
  /\ (FeaturedMatch.side featured = "none" <-> FeaturedMatch.color featured = "stone")
  /\ (FeaturedMatch.side featured = "radiant" -> 55 <= r)
  /\ (FeaturedMatch.side featured = "dire" -> 55 <= d /\ r < 65)
  /\ (65 <= r ->
      FeaturedMatch.text featured = "RADIANT VALUE"
      /\ MatchCard.text card = "RADIANT VALUE"
      /\ MatchDetailPage.text detail = "STRONG VALUE - RADIANT"
      /\ FeaturedMatch.side featured = "radiant")
  /\ (r < 65 -> 65 <= d ->
      FeaturedMatch.text featured = "DIRE VALUE"
      /\ MatchCard.text card = "DIRE VALUE"
      /\ MatchDetailPage.text detail = "STRONG VALUE - DIRE"
      /\ FeaturedMatch.side featured = "dire")
  /\ (55 <= r < 65 -> d < 65 ->
      FeaturedMatch.text featured = "LEAN RADIANT"
      /\ MatchCard.text card = "LEAN"
      /\ MatchDetailPage.text detail = "LEAN RADIANT"
      /\ FeaturedMatch.side featured = "radiant")
  /\ (r < 55 -> 55 <= d < 65 ->
      FeaturedMatch.text featured = "LEAN DIRE"
      /\ MatchCard.text card = "LEAN"
      /\ MatchDetailPage.text detail = "LEAN DIRE"
      /\ FeaturedMatch.side featured = "dire")
  /\ (r < 55 -> d < 55 ->
      FeaturedMatch.text featured = "CLOSE MATCH"
      /\ MatchCard.text card = "SKIP"
      /\ MatchDetailPage.text detail = "CLOSE MATCH - SKIP"
      /\ FeaturedMatch.side featured = "none").
Proof.
  cbv zeta.
  unfold MatchCard.getBetSignal, FeaturedMatch.getBetSignal, MatchDetailPage.getBetSignal.
  change (MatchCard.radiantProb m) with (FeaturedMatch.radiantProb m).
  change (MatchCard.direProb m) with (FeaturedMatch.direProb m).
  change (MatchDetailPage.radiantProb m) with (FeaturedMatch.radiantProb m).
  change (MatchDetailPage.direProb m) with (FeaturedMatch.direProb m).
  generalize (FeaturedMatch.radiantProb m) (FeaturedMatch.direProb m).
  intros r d.
  destruct (Z.leb_spec 65 r); destruct (Z.leb_spec 65 d);
    destruct (Z.leb_spec 55 r); destruct (Z.leb_spec 55 d);
    cbn; repeat split; intros; repeat split;
    try reflexivity; try discriminate; try lia.
Qed.

(** The caption under the signal is chosen by the same two boundaries on
    both pages: the betting caption exactly when one side reaches 65, the
    too-close caption exactly when both sides stay below 55, and the
    slight-edge caption exactly in between, when neither side reaches 65
    and one reaches 55. *)
Theorem captions_follow_percentages (m : Match) :
  let r := FeaturedMatch.radiantProb m in
  let d := FeaturedMatch.direProb m in
  let featured := SignalBox.featuredCaption (FeaturedMatch.color (FeaturedMatch.getBetSignal m)) in
  let detail := SignalBox.detailCaption (MatchDetailPage.getBetSignal m) in
  (featured = "Strong prediction - Consider betting" <-> 65 <= r \/ 65 <= d)
  /\ (detail = "✓ Safe threshold reached - Consider betting" <-> 65 <= r \/ 65 <= d)
  /\ (featured = "Game too close to call" <-> r < 55 /\ d < 55)
  /\ (detail = "Game too close to recommend a bet" <-> r < 55 /\ d < 55)
  /\ (featured = "Slight edge detected"
      <-> r < 65 /\ d < 65 /\ (55 <= r \/ 55 <= d))
  /\ (detail = "Slight edge detected - Proceed with caution"
      <-> r < 65 /\ d < 65 /\ (55 <= r \/ 55 <= d)).
Proof.
  cbv zeta.
  unfold FeaturedMatch.getBetSignal, MatchDetailPage.getBetSignal, SignalBox.detailCaption.
  change (MatchDetailPage.radiantProb m) with (FeaturedMatch.radiantProb m).
  change (MatchDetailPage.direProb m) with (FeaturedMatch.direProb m).
  generalize (FeaturedMatch.radiantProb m) (FeaturedMatch.direProb m).
  intros r d.
  destruct (Z.leb_spec 65 r); destruct (Z.leb_spec 65 d);
    destruct (Z.leb_spec 55 r); destruct (Z.leb_spec 55 d);
    cbn; repeat split; intros; repeat split;
    try reflexivity; try discriminate; try lia.
Qed.

End BetSignals.

(** ** Navigation links *)

Section Navigation.
Import Layout.

Lemma prefix_cons_inv (a : Ascii.ascii) (s p : string) :
  String.prefix (String a s) p = true ->
  exists rest, p = String a rest /\ String.prefix s rest = true.
Proof.
  destruct p as [| b rest]; cbn; [discriminate |].
  destruct (Ascii.ascii_dec a b) as [-> | _]; [| discriminate].
  intros H. now exists rest.
Qed.

Lemma prefix_refl (s : string) : String.prefix s s = true.
Proof.
  induction s as [| a s IH]; cbn; [reflexivity |].
  destruct (Ascii.ascii_dec a a) as [_ | Hne]; [exact IH | now contradiction Hne].
Qed.

(** An active desktop link other than Home is a prefix of the path. *)
Lemma NavLink_active_prefix (pathname to : string) :
  NavLink_isActive pathname to = true ->
  pathname = to \/ (to <> "/" /\ String.prefix to pathname = true).
Proof.
  unfold NavLink_isActive. intros H.
  apply orb_true_iff in H as [H | H].
  - left. now apply String.eqb_eq.
  - right. apply andb_true_iff in H as [Hne Hp]. split; [| exact Hp].
    apply negb_true_iff in Hne. now apply String.eqb_neq.
Qed.

(** Peels the known leading characters of a prefix off the path. *)
Ltac peel_prefix H :=
  repeat (apply prefix_cons_inv in H;
          let rest := fresh "rest" in
          let E := fresh "E" in
          destruct H as (rest & E & H);
          try subst).

(** On any path at most one of the four desktop links is highlighted,
    and Home only on the root path itself.  A mobile link that is
    highlighted has its desktop twin highlighted too, but not the other
    way round: on a match's detail page the desktop Matches link is
    highlighted and the mobile one is not. *)
Theorem nav_links_highlight (pathname id : string) :
  (length (List.filter (NavLink_isActive pathname) desktopLinks) <= 1)%nat
  /\ (NavLink_isActive pathname "/" = true <-> pathname = "/")
  /\ (forall to, MobileNavLink_isActive pathname to = true ->
                 NavLink_isActive pathname to = true)
  /\ NavLink_isActive (String.append "/matches/" id) "/matches" = true
  /\ MobileNavLink_isActive (String.append "/matches/" id) "/matches" = false.
Proof.
  split; [| split; [| split; [| split]]].
  - unfold desktopLinks. cbn [List.filter].
    destruct (NavLink_isActive pathname "/") eqn:Hhome.
    + apply NavLink_active_prefix in Hhome as [-> | [Hne _]];
        [vm_compute; lia | now contradiction Hne].
    + destruct (NavLink_isActive pathname "/matches") eqn:Hm;
        destruct (NavLink_isActive pathname "/accuracy") eqn:Hacc;
        destruct (NavLink_isActive pathname "/about") eqn:Hab;
        cbn [length]; try lia; exfalso;
        repeat match goal with
          | H : NavLink_isActive _ _ = true |- _ =>
              apply NavLink_active_prefix in H as [H | [_ H]];
              [subst; try discriminate | ]
          | H : NavLink_isActive _ _ = false |- _ => clear H
          end;
        try discriminate;
        match goal with
        | H : String.prefix _ pathname = true |- _ => peel_prefix H
        end;
        match goal with
        | H : String.prefix (String _ _) (String _ _) = true |- _ =>
            vm_compute in H; discriminate H
        end.
  - unfold NavLink_isActive. rewrite String.eqb_refl. cbn.
    rewrite orb_false_r. apply String.eqb_eq.
  - intros to H. unfold MobileNavLink_isActive in H. unfold NavLink_isActive.
    now rewrite H.
  - unfold NavLink_isActive. apply orb_true_iff. right. cbn. 
    repeat (match goal with
            | |- context [Ascii.ascii_dec ?a ?a] =>
                destruct (Ascii.ascii_dec a a) as [_ | Hne]; [| now contradiction Hne]
            end).
    reflexivity.
  - unfold MobileNavLink_isActive. cbn. reflexivity.
Qed.

End Navigation.

(** ** Arrays: [slice] and [sort] *)

Section Arrays.
Context {A : Type}.

(** [slice] between two indices that are not negative. *)
Lemma slice2_nat (a b : nat) (l : list A) :
  JsArray.slice2 (Z.of_nat a) (Z.of_nat b) l = take (b - a) (drop a l).
Proof.
  unfold JsArray.slice2.
  destruct (Z.ltb_spec (Z.of_nat a) 0) as [Hneg | _]; [lia |].
  destruct (Z.ltb_spec (Z.of_nat b) 0) as [Hneg | _]; [lia |].
  destruct (le_lt_dec (length l) a) as [Hout | Hin].
  - rewrite (drop_ge l a) by exact Hout.
    rewrite drop_ge by lia. now rewrite !take_nil.
  - replace (Z.to_nat (Z.min (Z.of_nat a) (Z.of_nat (length l)))) with a by lia.
    destruct (le_lt_dec b (length l)) as [Hb | Hb].
    + f_equal. lia.
    + rewrite (take_ge (drop a l) (b - a)) by (rewrite length_drop; lia).
      apply take_ge. rewrite length_drop. lia.
Qed.

Lemma insert_sorted_perm (compareFn : A -> A -> number) (x : A) (l : list A) :
  JsArray.insert_sorted compareFn x l ≡ₚ x :: l.
Proof.
  induction l as [| y l IH]; cbn; [reflexivity |].
  destruct (Math.ltb 0%Q (compareFn x y)); [| reflexivity].
  rewrite IH. apply Permutation_swap.
Qed.

(** Sorting rearranges: nothing is lost, added or repeated. *)
Lemma sort_perm (compareFn : A -> A -> number) (l : list A) :
  JsArray.sort compareFn l ≡ₚ l.
Proof.
  induction l as [| x l IH]; cbn; [reflexivity |].
  fold (JsArray.sort compareFn l). now rewrite insert_sorted_perm, IH.
Qed.

End Arrays.

(** ** The home page's ranking *)

Section Ranking.
Import HomePage.
Local Open Scope Q_scope.

Lemma insert_keeps_ranking (x : LiveMatch) (l : list LiveMatch) :
  StronglySorted at_least_as_watched l ->
  StronglySorted at_least_as_watched (JsArray.insert_sorted bySpectators x l).
Proof.
  induction 1 as [| y l Hsorted IH Hall]; cbn.
  - apply SSorted_cons; [apply SSorted_nil | apply Forall_nil_2].
  - unfold bySpectators at 1.
    destruct (Math.ltb 0 (spectators y - spectators x)) eqn:E.
    + apply ltb_true in E. apply SSorted_cons; [exact IH |].
      rewrite insert_sorted_perm. apply Forall_cons. split; [| exact Hall].
      unfold at_least_as_watched. lra.
    + apply ltb_false in E.
      apply SSorted_cons; [now apply SSorted_cons |].
      apply Forall_cons. split; [unfold at_least_as_watched; lra |].
      eapply Forall_impl; [exact Hall |].
      intros z Hz. unfold at_least_as_watched in *. lra.
Qed.

Lemma sortedMatches_ranked (liveMatches : list LiveMatch) :
  StronglySorted at_least_as_watched (sortedMatches liveMatches).
Proof.
  unfold sortedMatches, JsArray.sort.
  induction liveMatches as [| x l IH]; cbn; [apply SSorted_nil |].
  now apply insert_keeps_ranking.
Qed.

(** The featured match is the most watched one.  The ranking is a
    rearrangement of the fetched matches in descending order of
    spectators; the featured match is its head, so no fetched match has
    more spectators, and there is none exactly when nothing was fetched;
    the other matches are the next six of the ranking at most, so the
    featured match and the others together are its first seven. *)
Theorem featured_is_most_watched (liveMatches : list LiveMatch) :
  sortedMatches liveMatches ≡ₚ liveMatches
  /\ StronglySorted at_least_as_watched (sortedMatches liveMatches)
  /\ (featuredMatch liveMatches = None <-> liveMatches = [])
  /\ (forall f m, featuredMatch liveMatches = Some f -> m ∈ liveMatches ->
                  spectators m <= spectators f)
  /\ (forall f, featuredMatch liveMatches = Some f ->
                f :: otherMatches liveMatches = take 7 (sortedMatches liveMatches))
  /\ length (otherMatches liveMatches) = Nat.min 6 (length liveMatches - 1).
Proof.
  pose proof (sort_perm bySpectators liveMatches) as Hperm.
  pose proof (sortedMatches_ranked liveMatches) as Hranked.
  fold (sortedMatches liveMatches) in Hperm.
  unfold featuredMatch, otherMatches, JsArray.first.
  change 1%Z with (Z.of_nat 1). change 7%Z with (Z.of_nat 7).
  rewrite slice2_nat.
  split; [exact Hperm | split; [exact Hranked |]].
  destruct (sortedMatches liveMatches) as [| f rest] eqn:Hsorted.
  - apply Permutation_nil_l in Hperm. subst liveMatches.
    repeat split; try reflexivity; intros; discriminate.
  - assert (Hlen : length liveMatches = S (length rest))
      by (now rewrite <- Hperm).
    split; [| split; [| split]].
    + split; [discriminate |]. intros ->. discriminate.
    + intros f' m [= <-] Hin. rewrite <- Hperm in Hin.
      apply StronglySorted_inv in Hranked as [_ Hall].
      apply elem_of_cons in Hin as [-> | Hin]; [apply Qle_refl |].
      rewrite Forall_forall in Hall. now apply Hall.
    + intros f' [= <-]. reflexivity.
    + change (drop 1 (f :: rest)) with rest. rewrite length_take, Hlen. lia.
Qed.

End Ranking.

(** ** Pagination of the match list *)

Section Pagination.
Import MatchesPage.
Context {A : Type}.

(** The number of pages is the least one whose pages hold the list. *)
Lemma totalPages_bounds (l : list A) :
  (Z.of_nat (length l) <= 12 * totalPages l)%Z
  /\ (12 * (totalPages l - 1) < Z.of_nat (length l))%Z.
Proof.
  unfold totalPages, MathExt.ceil, matchesPerPage.
  set (n := Z.of_nat (length l)).
  pose proof (Qle_ceiling (inject_Z n / inject_Z 12)) as Hup.
  pose proof (Qceiling_lt (inject_Z n / inject_Z 12)) as Hlow.
  set (k := Qceiling (inject_Z n / inject_Z 12)) in *.
  assert (Hn : (inject_Z 12 * (inject_Z n / inject_Z 12) == inject_Z n)%Q)
    by (apply Qmult_div_r; discriminate).
  unfold Z.sub in Hlow. rewrite inject_Z_plus in Hlow.
  change (inject_Z (-1)) with (-1)%Q in Hlow.
  change (inject_Z 12) with 12%Q in *.
  split.
  - rewrite Zle_Qle, inject_Z_mult. change (inject_Z 12) with 12%Q. lra.
  - rewrite Zlt_Qlt, inject_Z_mult. unfold Z.sub. rewrite inject_Z_plus.
    change (inject_Z 12) with 12%Q. change (inject_Z (-1)) with (-1)%Q. lra.
Qed.

(** A page in range is the twelve matches after those of the pages
    before it. *)
Lemma paginatedMatches_nat (i : nat) (l : list A) :
  paginatedMatches (Z.of_nat (S i)) l = take 12 (drop (12 * i) l).
Proof.
  unfold paginatedMatches, matchesPerPage.
  replace ((Z.of_nat (S i) - 1) * 12)%Z with (Z.of_nat (12 * i)) by lia.
  replace (Z.of_nat (S i) * 12)%Z with (Z.of_nat (12 * i + 12)) by lia.
  rewrite slice2_nat. f_equal. lia.
Qed.

Lemma pages_concat (k : nat) (l : list A) :
  concat ((fun i => paginatedMatches (Z.of_nat i) l) <$> seq 1 k) = take (12 * k) l.
Proof.
  induction k as [| k IH].
  - cbn. now rewrite take_0.
  - rewrite seq_S, fmap_app, concat_app, IH. cbn [fmap list_fmap concat].
    rewrite app_nil_r. change (1 + k) with (S k).
    rewrite paginatedMatches_nat, take_take_drop. f_equal. lia.
Qed.

Lemma page_past_the_end_empty (l : list A) (p : Z) :
  (totalPages l < p)%Z -> paginatedMatches p l = [].
Proof.
  intros Hp. destruct (totalPages_bounds l) as [Hup Hlow].
  replace p with (Z.of_nat (S (Z.to_nat (p - 1)))) by lia.
  rewrite paginatedMatches_nat, drop_ge by lia. apply take_nil.
Qed.

(** The pages partition the list.  No page holds more than 12 matches;
    pages 1 to [totalPages], one after the other, give back the fetched
    list; each of them has a match on it; a page past the last one is
    empty; and Previous and Next never leave the range of pages. *)
Theorem pages_partition (liveMatches : list A) (p : Z) :
  length (paginatedMatches p liveMatches) <= 12
  /\ concat ((fun i => paginatedMatches (Z.of_nat i) liveMatches)
               <$> seq 1 (Z.to_nat (totalPages liveMatches)))
     = liveMatches
  /\ ((1 <= p <= totalPages liveMatches)%Z -> paginatedMatches p liveMatches <> [])
  /\ ((totalPages liveMatches < p)%Z -> paginatedMatches p liveMatches = [])
  /\ ((1 <= p <= totalPages liveMatches)%Z ->
      (1 <= previous p <= totalPages liveMatches)%Z
      /\ (1 <= next liveMatches p <= totalPages liveMatches)%Z).
Proof.
  destruct (totalPages_bounds liveMatches) as [Hup Hlow].
  split; [| split; [| split; [| split]]].
  - unfold paginatedMatches, JsArray.slice2. rewrite length_take.
    unfold matchesPerPage.
    destruct (Z.ltb_spec ((p - 1) * 12) 0); destruct (Z.ltb_spec (p * 12) 0); lia.
  - rewrite pages_concat. apply take_ge. lia.
  - intros [Hp1 Hp2].
    replace p with (Z.of_nat (S (Z.to_nat (p - 1)))) by lia.
    rewrite paginatedMatches_nat. intros Hempty.
    apply (f_equal length) in Hempty.
    rewrite length_take, length_drop in Hempty. cbn [length] in Hempty. lia.
  - apply page_past_the_end_empty.
  - intros [Hp1 Hp2]. unfold previous, next, MathExt.maxZ, MathExt.minZ.
    destruct (Z.leb_spec 1 (p - 1));
      destruct (Z.leb_spec (totalPages liveMatches) (p + 1)); lia.
Qed.

(** When a refresh brings a shorter list while the reader is on a page
    that no longer exists, the page renders neither the grid, nor the
    empty state, nor the pagination buttons. *)
Theorem page_past_the_end_is_blank (s : State A) :
  loading s = false ->
  error s = None ->
  liveMatches s <> [] ->
  (totalPages (liveMatches s) < currentPage s)%Z ->
  view s = Nothing.
Proof.
  intros Hload Herr Hsome Hpast. unfold view.
  rewrite Hload, Herr. cbn [truthy].
  rewrite (page_past_the_end_empty _ _ Hpast). cbn [length].
  destruct (liveMatches s) as [| x l]; [now contradiction Hsome |].
  reflexivity.
Qed.

End Pagination.

(** Thirteen matches while the reader is on page 3 of what used to be a
    longer list. *)
Lemma page_past_the_end_is_blank_witness :
  MatchesPage.view
    {| MatchesPage.liveMatches := seq 1 13;
       MatchesPage.loading := false;
       MatchesPage.error := None;
       MatchesPage.currentPage := 3 |}
  = MatchesPage.Nothing.
Proof.
  apply page_past_the_end_is_blank; cbn.
  - reflexivity.
  - reflexivity.
  - discriminate.
  - vm_compute. reflexivity.
Defined.

(** ** Runs of the app store *)

Section AppStoreRunsFacts.
Import AppStore AppStoreRuns.

Lemma updateGameState_history (state : GameState) (st : AppState) :
  probabilityHistory (updateGameState state st)
  = last_n 60 (probabilityHistory st ++ option_list (point_of state))
    \/ (point_of state = None
        /\ probabilityHistory (updateGameState state st) = probabilityHistory st).
Proof.
  unfold updateGameState, point_of. destruct (game_time state) as [t |].
  - left. rewrite addProbabilityPoint_history. reflexivity.
  - right. split; reflexivity.
Qed.

Lemma updateAll_from (states : list GameState) (st : AppState) :
  length (probabilityHistory st) <= 60 ->
  probabilityHistory (updateAll states st)
  = last_n 60 (probabilityHistory st ++ omap point_of states)
  /\ gameState (updateAll states st)
     = match last states with Some g => Some g | None => gameState st end
  /\ connectionStatus (updateAll states st) = connectionStatus st
  /\ currentPage (updateAll states st) = currentPage st.
Proof.
  revert st. induction states as [| g states IH]; intros st Hst.
  - cbn. rewrite app_nil_r. repeat split. symmetry. now apply last_n_all.
  - cbn [updateAll foldl]. fold (updateAll states (updateGameState g st)).
    assert (Hg : probabilityHistory (updateGameState g st)
                 = last_n 60 (probabilityHistory st ++ option_list (point_of g))).
    { destruct (updateGameState_history g st) as [H | [Hnone H]]; [exact H |].
      rewrite H, Hnone. cbn. rewrite app_nil_r. symmetry. now apply last_n_all. }
    destruct (IH (updateGameState g st)) as (Hh & Hs & Hc & Hp).
    { rewrite Hg, length_last_n. lia. }
    rewrite Hh, Hs, Hc, Hp, Hg. repeat split.
    + rewrite last_n_app_last_n, <- app_assoc. f_equal. f_equal.
      cbn [omap list_omap]. destruct (point_of g); reflexivity.
    + destruct states as [| g' states'].
      * cbn [last]. unfold updateGameState. destruct (game_time g); reflexivity.
      * change (last (g :: g' :: states')) with (last (g' :: states')).
        destruct (last (g' :: states')) eqn:E; [reflexivity |].
        apply last_None in E. discriminate.
    + unfold updateGameState. destruct (game_time g); reflexivity.
    + unfold updateGameState. destruct (game_time g); reflexivity.
Qed.

(** Feeding game states to the store one after the other leaves the last
    of them as the current game state and, as history, the most recent
    60 points of the states that carried a game time, in order; states
    without a game time add no point.  The connection status and the
    current page are not touched. *)
Theorem updateAll_keeps_latest (states : list GameState) :
  probabilityHistory (updateAll states initial) = last_n 60 (omap point_of states)
  /\ gameState (updateAll states initial) = last states
  /\ connectionStatus (updateAll states initial) = connecting
  /\ currentPage (updateAll states initial) = dashboard.
Proof.
  destruct (updateAll_from states initial) as (Hh & Hs & Hc & Hp); [cbn; lia |].
  rewrite Hh, Hs, Hc, Hp. cbn [initial probabilityHistory gameState app].
  repeat split. now destruct (last states).
Qed.

End AppStoreRunsFacts.

(** ** Runs of the dashboard *)

Section DashboardRuns.
Import Js.
Variable JSON_parse : string -> option jsval.

Lemma update_of_None (ev : Dashboard.Event) :
  DashboardTrace.update_of JSON_parse ev = None ->
  Dashboard.is_update JSON_parse ev = false.
Proof.
  destruct ev as [| now event_data | | |]; cbn; try reflexivity.
  destruct (JSON_parse event_data) as [data |]; [| reflexivity].
  destruct (get data f_type) as [type |]; [| reflexivity].
  destruct (strict_eq_string type "update"); [discriminate | reflexivity].
Qed.

(** What one step does to the store, read off the event. *)
Lemma step_store (d : Dashboard.State) (ev : Dashboard.Event) :
  Dashboard.store (Dashboard.step JSON_parse d ev)
  = {| GameStore.winProbability :=
         match DashboardTrace.update_of JSON_parse ev with
         | Some (_, data) => optional_get data f_win_probability
         | None => GameStore.winProbability (Dashboard.store d)
         end;
       GameStore.gameTime :=
         match DashboardTrace.update_of JSON_parse ev with
         | Some (_, data) => optional_get data f_timestamp
         | None => GameStore.gameTime (Dashboard.store d)
         end;
       GameStore.isConnected :=
         default (GameStore.isConnected (Dashboard.store d))
                 (DashboardTrace.connection_of ev);
       GameStore.lastUpdate :=
         match DashboardTrace.update_of JSON_parse ev with
         | Some (t, _) => t
         | None => GameStore.lastUpdate (Dashboard.store d)
         end |}.
Proof.
  destruct d as [[st log] dead]. destruct st as [wp gt conn lu].
  destruct ev as [| now event_data | | | now];
    unfold Dashboard.store, Dashboard.step, Dashboard.handler;
    cbn [Dashboard.tab Dashboard.interval_tick DashboardTrace.update_of
         DashboardTrace.connection_of default]; try reflexivity.
  rewrite hook_onmessage_unfold.
  destruct (JSON_parse event_data) as [data |]; [| reflexivity].
  destruct (get data f_type) as [type |]; [| reflexivity].
  destruct (strict_eq_string type "update"); reflexivity.
Qed.

Lemma run_snoc (events : list Dashboard.Event) (ev : Dashboard.Event) (d : Dashboard.State) :
  Dashboard.run JSON_parse (events ++ [ev]) d
  = Dashboard.step JSON_parse (Dashboard.run JSON_parse events d) ev.
Proof. unfold Dashboard.run. now rewrite foldl_app. Qed.

(** The store after a run, read off the events. *)
Lemma run_store (events : list Dashboard.Event) (d : Dashboard.State) :
  Dashboard.store (Dashboard.run JSON_parse events d)
  = {| GameStore.winProbability :=
         match DashboardTrace.last_update JSON_parse events with
         | Some (_, data) => optional_get data f_win_probability
         | None => GameStore.winProbability (Dashboard.store d)
         end;
       GameStore.gameTime :=
         match DashboardTrace.last_update JSON_parse events with
         | Some (_, data) => optional_get data f_timestamp
         | None => GameStore.gameTime (Dashboard.store d)
         end;
       GameStore.isConnected :=
         default (GameStore.isConnected (Dashboard.store d))
                 (DashboardTrace.last_connection events);
       GameStore.lastUpdate :=
         match DashboardTrace.last_update JSON_parse events with
         | Some (t, _) => t
         | None => GameStore.lastUpdate (Dashboard.store d)
         end |}.
Proof.
  induction events as [| ev events IH] using rev_ind.
  - cbn. now destruct (Dashboard.store d).
  - rewrite run_snoc, step_store, IH.
    unfold DashboardTrace.last_update, DashboardTrace.last_connection.
    rewrite !omap_app, !last_app. cbn [omap list_omap].
    cbn [GameStore.winProbability GameStore.gameTime GameStore.isConnected
         GameStore.lastUpdate].
    destruct (DashboardTrace.update_of JSON_parse ev) as [[t data] |];
      destruct (DashboardTrace.connection_of ev) as [c |]; cbn [last default];
      try reflexivity;
      destruct (last (omap DashboardTrace.connection_of events));
      destruct (last (omap (DashboardTrace.update_of JSON_parse) events)) as [[t' data'] |];
      reflexivity.
Qed.

(** Last update wins.  After any run of events the dashboard shows the
    win probability and game time of the most recent update frame, and
    [undefined] for a field that frame does not carry; the values of
    earlier frames, and the values from before the run once an update
    arrived, are gone.  Without an update the values are those from
    before. *)
Theorem dashboard_shows_last_update (events : list Dashboard.Event) (d : Dashboard.State) :
  let shown := Dashboard.view (Dashboard.run JSON_parse events d) in
  match DashboardTrace.last_update JSON_parse events with
  | Some (_, data) =>
      Dashboard.shownWinProbability shown = optional_get data f_win_probability
      /\ Dashboard.shownGameTime shown = optional_get data f_timestamp
  | None =>
      Dashboard.shownWinProbability shown = GameStore.winProbability (Dashboard.store d)
      /\ Dashboard.shownGameTime shown = GameStore.gameTime (Dashboard.store d)
  end.
Proof.
  cbv zeta. unfold Dashboard.view.
  cbn [Dashboard.shownWinProbability Dashboard.shownGameTime].
  rewrite run_store.
  cbn [GameStore.winProbability GameStore.gameTime].
  destruct (DashboardTrace.last_update JSON_parse events) as [[t data] |];
    split; reflexivity.
Qed.

(** The connection badge follows the socket: it reads LIVE exactly when
    the most recent open or close was an open.  Messages, socket errors
    and ticks do not change it. *)
Theorem connection_badge_follows_socket
    (events : list Dashboard.Event) (d : Dashboard.State) :
  Dashboard.connectionBadge (Dashboard.view (Dashboard.run JSON_parse events d))
  = if default (GameStore.isConnected (Dashboard.store d))
               (DashboardTrace.last_connection events)
    then "LIVE" else "OFFLINE".
Proof.
  unfold Dashboard.view. cbn [Dashboard.connectionBadge].
  rewrite run_store. reflexivity.
Qed.

(** When the interval callback runs after any run of events, NO DATA is
    shown exactly when the socket's most recent open or close was an open
    and the most recent update frame arrived more than 2000 ms ago; a
    flag raised earlier is dropped otherwise. *)
Theorem no_data_badge_after_tick
    (events : list Dashboard.Event) (d : Dashboard.State) (now : Z) :
  Dashboard.noDataBadge
    (Dashboard.view (Dashboard.interval_tick now (Dashboard.run JSON_parse events d)))
  = true
  <-> default (GameStore.isConnected (Dashboard.store d))
              (DashboardTrace.last_connection events) = true
      /\ (2000 < now - match DashboardTrace.last_update JSON_parse events with
                       | Some (t, _) => t
                       | None => GameStore.lastUpdate (Dashboard.store d)
                       end)%Z.
Proof.
  unfold Dashboard.view, Dashboard.interval_tick.
  cbn [Dashboard.noDataBadge Dashboard.isDead].
  rewrite run_store. cbn [GameStore.isConnected GameStore.lastUpdate].
  set (t := match DashboardTrace.last_update JSON_parse events with
            | Some (t, _) => t
            | None => GameStore.lastUpdate (Dashboard.store d)
            end).
  destruct (default (GameStore.isConnected (Dashboard.store d))
              (DashboardTrace.last_connection events));
    destruct (Z.ltb_spec 2000 (now - t)); cbn; split;
    try (intros [? ?]); intros; try split; try discriminate; try reflexivity;
    try lia.
Qed.

(** An update frame is taken as it is: a field it does not carry erases
    the stored value instead of leaving the previous one in place. *)
Theorem update_without_field_erases
    (now : Z) (event_data : string) (props : gmap string jsval) (w : WebSocketHook.Tab) :
  JSON_parse event_data = Some (JObject props) ->
  props !! "type" = Some (JString "update") ->
  let w' := snd (WebSocketHook.onmessage JSON_parse now event_data w) in
  (props !! "win_probability" = None ->
   GameStore.winProbability (WebSocketHook.store w') = JUndefined)
  /\ (props !! "timestamp" = None ->
      GameStore.gameTime (WebSocketHook.store w') = JUndefined)
  /\ GameStore.lastUpdate (WebSocketHook.store w') = now
  /\ GameStore.isConnected (WebSocketHook.store w')
     = GameStore.isConnected (WebSocketHook.store w)
  /\ WebSocketHook.console w' = WebSocketHook.console w.
Proof.
  intros Hparse Htype. cbv zeta.
  rewrite hook_onmessage_unfold, Hparse. cbn [get field_name].
  rewrite Htype. cbn.
  repeat split; intros H; rewrite H; reflexivity.
Qed.

End DashboardRuns.

(** ** Runs of the spectate page *)

Section SpectateRuns.
Import Js.
Variable JSON_parse : string -> option jsval.

Lemma accepted_object (ev : SpectateRun.Event) (data : jsval) :
  SpectateRun.accepted JSON_parse ev = Some data ->
  SpectateRun.waiting data = false.
Proof.
  destruct ev as [| event_data | |]; cbn; try discriminate.
  destruct (JSON_parse event_data) as [d |]; [| discriminate].
  destruct d; cbn; try discriminate;
    match goal with
    | |- context [strict_eq_string ?t _ && _] =>
        destruct (strict_eq_string t "update" && _); [| discriminate]
    end;
    intros [= <-]; reflexivity.
Qed.

(** What one step does to the page, read off the event. *)
Lemma spectate_step (s : SpectatePage.State) (ev : SpectateRun.Event) :
  SpectatePage.prediction (SpectateRun.step JSON_parse s ev)
  = default (SpectatePage.prediction s) (SpectateRun.accepted JSON_parse ev)
  /\ SpectatePage.app (SpectateRun.step JSON_parse s ev)
     = match SpectateRun.status_of ev with
       | Some status => AppStore.setConnectionStatus status (SpectatePage.app s)
       | None => SpectatePage.app s
       end.
Proof.
  destruct s as [app prediction log].
  destruct ev as [| event_data | |]; unfold SpectateRun.step, SpectateRun.handler;
    cbn [SpectateRun.status_of SpectateRun.accepted default]; try (split; reflexivity).
  rewrite spectate_onmessage_unfold.
  destruct (JSON_parse event_data) as [d |]; [| split; reflexivity].
  destruct d; cbn; try (split; reflexivity);
    match goal with
    | |- context [strict_eq_string ?t _] =>
        destruct (strict_eq_string t "update"); cbn; try (split; reflexivity)
    end;
    match goal with
    | |- context [is_defined ?v] => destruct (is_defined v); split; reflexivity
    end.
Qed.

Lemma spectate_run_snoc
    (events : list SpectateRun.Event) (ev : SpectateRun.Event) (s : SpectatePage.State) :
  SpectateRun.run JSON_parse (events ++ [ev]) s
  = SpectateRun.step JSON_parse (SpectateRun.run JSON_parse events s) ev.
Proof. unfold SpectateRun.run. now rewrite foldl_app. Qed.

(** After any run of socket events the page holds the most recent frame
    that passed the filter (an object whose type is 'update' and whose
    model_win_probability is not undefined), whole and as received; the
    connection status is the one the most recent open, close or error
    left; and the page never writes the store's game state or
    probability history. *)
Theorem spectate_holds_last_accepted
    (events : list SpectateRun.Event) (s : SpectatePage.State) :
  let s' := SpectateRun.run JSON_parse events s in
  SpectatePage.prediction s'
  = default (SpectatePage.prediction s)
            (last (omap (SpectateRun.accepted JSON_parse) events))
  /\ AppStore.connectionStatus (SpectatePage.app s')
     = default (AppStore.connectionStatus (SpectatePage.app s))
               (last (omap SpectateRun.status_of events))
  /\ AppStore.gameState (SpectatePage.app s') = AppStore.gameState (SpectatePage.app s)
  /\ AppStore.probabilityHistory (SpectatePage.app s')
     = AppStore.probabilityHistory (SpectatePage.app s)
  /\ AppStore.currentPage (SpectatePage.app s') = AppStore.currentPage (SpectatePage.app s).
Proof.
  cbv zeta. induction events as [| ev events IH] using rev_ind.
  - cbn. repeat split; reflexivity.
  - rewrite spectate_run_snoc.
    destruct (spectate_step (SpectateRun.run JSON_parse events s) ev) as [Hp Ha].
    destruct IH as (IHp & IHc & IHg & IHh & IHpage).
    rewrite Hp, Ha, !omap_app, !last_app. cbn [omap list_omap].
    repeat split.
    + destruct (SpectateRun.accepted JSON_parse ev); cbn [last default];
        [reflexivity |].
      rewrite IHp.
      destruct (last (omap (SpectateRun.accepted JSON_parse) events)); reflexivity.
    + destruct (SpectateRun.status_of ev); cbn [last default];
        [reflexivity |].
      rewrite IHc. destruct (last (omap SpectateRun.status_of events)); reflexivity.
    + destruct (SpectateRun.status_of ev); cbn; exact IHg.
    + destruct (SpectateRun.status_of ev); cbn; exact IHh.
    + destruct (SpectateRun.status_of ev); cbn; exact IHpage.
Qed.

(** The waiting screen is shown exactly until the first frame passes the
    filter: from the initial page, after any run of socket events, the
    prediction is falsy if and only if no event of the run was accepted.
    A close or an error of the socket does not bring the waiting screen
    back. *)
Theorem waiting_until_first_accepted (events : list SpectateRun.Event) :
  SpectateRun.waiting
    (SpectatePage.prediction (SpectateRun.run JSON_parse events SpectatePage.initial))
  = true
  <-> Forall (fun ev => SpectateRun.accepted JSON_parse ev = None) events.
Proof.
  induction events as [| ev events IH] using rev_ind.
  - cbn. split; [constructor | reflexivity].
  - rewrite spectate_run_snoc.
    destruct (spectate_step
                (SpectateRun.run JSON_parse events SpectatePage.initial) ev) as [Hp _].
    rewrite Hp, Forall_app, Forall_singleton.
    destruct (SpectateRun.accepted JSON_parse ev) as [data |] eqn:Hacc;
      cbn [default from_option id].
    + pose proof (accepted_object ev data Hacc) as Hshown.
      split; [intros H; congruence | intros [_ H]; discriminate H].
    + rewrite IH. split; [intros H; split; [exact H | reflexivity] | intros [H _]; exact H].
Qed.

End SpectateRuns.

(** A dashboard showing 70% at 120 s receives [{"type":"update"}]. *)
Lemma update_without_field_erases_witness :
  let shown :=
    {| WebSocketHook.store :=
         {| GameStore.winProbability := Js.JNum 0.7%Q;
            GameStore.gameTime := Js.JNum 120%Q;
            GameStore.isConnected := true;
            GameStore.lastUpdate := 1000%Z |};
       WebSocketHook.console := [] |} in
  let w' := snd (WebSocketHook.onmessage BareUpdate.parse 1500%Z BareUpdate.frame shown) in
  GameStore.winProbability (WebSocketHook.store w') = Js.JUndefined
  /\ GameStore.gameTime (WebSocketHook.store w') = Js.JUndefined
  /\ GameStore.lastUpdate (WebSocketHook.store w') = 1500%Z.
Proof.
  cbv zeta.
  destruct (update_without_field_erases BareUpdate.parse 1500%Z BareUpdate.frame
              BareUpdate.props
              {| WebSocketHook.store :=
                   {| GameStore.winProbability := Js.JNum 0.7%Q;
                      GameStore.gameTime := Js.JNum 120%Q;
                      GameStore.isConnected := true;
                      GameStore.lastUpdate := 1000%Z |};
                 WebSocketHook.console := [] |})
    as (Hwin & Htime & Hlast & _).
  - vm_compute. reflexivity.
  - vm_compute. reflexivity.
  - split; [apply Hwin; vm_compute; reflexivity |].
    split; [apply Htime; vm_compute; reflexivity | exact Hlast].
Defined.
